(** * GPR2PIC: the GSSI DZT decoder of MAIN.py

    A shallow embedding of [read_gssi_dzt_final] (MAIN.py, lines 7-83):
    the file is a list of bytes, the open file object is a cursor into it,
    [print] appends to a log, and Python exceptions are an error monad
    whose handler is the [except Exception] clause of the function. *)

From Stdlib Require Import ZArith List Lia Bool.
From Stdlib Require Import Strings.Byte.
From Stdlib Require Strings.String Strings.Ascii.
From Stdlib Require Import Floats.SpecFloat.
Import ListNotations.
Open Scope Z_scope.

(** ** Python values *)

(** The exceptions the decoder and the export can raise. *)
Inductive exn :=
| FileNotFoundError
| StructError
| ValueError
| ZeroDivisionError
| OverflowError
| IndexError.

Definition byte_val (b : byte) : Z := Z.of_N (Byte.to_N b).

(** [b[lo:hi]] on a bytes object, for [0 <= lo <= hi]. *)
Definition slice {A : Type} (lo hi : nat) (l : list A) : list A :=
  firstn (hi - lo) (skipn lo l).

Inductive byteorder := LittleEndian | BigEndian.

(** [int.from_bytes(bs, 'little')]. *)
Definition from_bytes_le (bs : list byte) : Z :=
  fold_right (fun b acc => byte_val b + 256 * acc) 0 bs.

Definition from_bytes (bo : byteorder) (bs : list byte) : Z :=
  match bo with
  | LittleEndian => from_bytes_le bs
  | BigEndian => from_bytes_le (rev bs)
  end.

(** Two's complement reading of an unsigned [nbytes]-byte value. *)
Definition to_signed (nbytes : nat) (u : Z) : Z :=
  if u <? 2 ^ (8 * Z.of_nat nbytes - 1) then u else u - 2 ^ (8 * Z.of_nat nbytes).

(** A Python float is an IEEE-754 binary64 value. *)
Definition float : Type := spec_float.

Module PyFloat.

Definition prec : Z := 53.
Definition emax : Z := 1024.

Definition zero : float := S754_zero false.

(** [float(n)] for a Python int: round to nearest even, [OverflowError]
    when the result is not finite. *)
Definition of_int (n : Z) : exn + float :=
  match binary_normalize prec emax n 0 false with
  | S754_infinity _ => inl OverflowError
  | x => inr x
  end.

(** [x <= 0] and [x > 0]; both are [False] on a NaN. *)
Definition le_zero (x : float) : bool := SFleb x zero.
Definition gt_zero (x : float) : bool := SFltb zero x.

(** [a / b] on floats. *)
Definition truediv (a b : float) : exn + float :=
  match b with
  | S754_zero _ => inl ZeroDivisionError
  | _ => inr (SFdiv prec emax a b)
  end.

(** [n / b] with [n] an int and [b] a float: the int is converted
    first, then the floats are divided. *)
Definition int_truediv (n : Z) (b : float) : exn + float :=
  match of_int n with
  | inl e => inl e
  | inr a => truediv a b
  end.

(** The binary32 value with bit pattern [u], as a Python float
    (the conversion from binary32 to binary64 is exact). *)
Definition of_bits32 (u : Z) : float :=
  let s := Z.testbit u 31 in
  let e := Z.land (Z.shiftr u 23) 255 in
  let m := Z.land u (2 ^ 23 - 1) in
  if e =? 255 then (if m =? 0 then S754_infinity s else S754_nan)
  else if e =? 0 then binary_normalize prec emax (cond_Zopp s m) (-149) s
  else binary_normalize prec emax (cond_Zopp s (m + 2 ^ 23)) (e - 150) s.

End PyFloat.

(** The [struct] module, for the two formats the decoder uses. *)
Module Struct.

(** [struct.unpack('<h', b)[0]] and [struct.unpack('>h', b)[0]]. *)
Definition unpack_h (bo : byteorder) (b : list byte) : exn + Z :=
  if (length b =? 2)%nat then inr (to_signed 2 (from_bytes bo b))
  else inl StructError.

(** [struct.unpack('<f', b)[0]]. *)
Definition unpack_f (bo : byteorder) (b : list byte) : exn + float :=
  if (length b =? 4)%nat then inr (PyFloat.of_bits32 (from_bytes bo b))
  else inl StructError.

End Struct.

(** The part of numpy the decoder uses. *)
Module Np.

Inductive dtype := i2_le | i4_le.

Definition itemsize (dt : dtype) : nat :=
  match dt with i2_le => 2 | i4_le => 4 end.

(** Binary [fromfile] reads item after item and stops, without an error,
    at the first item the stream cannot fill. *)
Fixpoint read_items (w count : nat) (bs : list byte) : list Z :=
  match count with
  | O => []
  | S k =>
      let item := firstn w bs in
      if (length item <? w)%nat then []
      else to_signed w (from_bytes_le item) :: read_items w k (skipn w bs)
  end.

(** A two-dimensional view on a flat buffer; strides count items. *)
Record ndarray := {
  buffer : list Z;
  shape : nat * nat;
  strides : nat * nat
}.

(** [a.reshape((r, c), order='F')] on a one-dimensional array: the first
    index changes fastest. The decoder only calls it with positive
    dimensions; a size mismatch is a [ValueError]. *)
Definition reshape_F (a : list Z) (dims : Z * Z) : exn + ndarray :=
  let '(r, c) := dims in
  if (0 <=? r) && (0 <=? c) && (Z.of_nat (length a) =? r * c) then
    inr {| buffer := a;
           shape := (Z.to_nat r, Z.to_nat c);
           strides := (1%nat, Z.to_nat r) |}
  else inl ValueError.

(** [a[i, j]]; [None] is an [IndexError]. *)
Definition getitem (a : ndarray) (i j : nat) : option Z :=
  if (i <? fst (shape a))%nat && (j <? snd (shape a))%nat then
    nth_error (buffer a) (i * fst (strides a) + j * snd (strides a))
  else None.

(** [a[:, j]] as a list. *)
Definition column (a : ndarray) (j : nat) : list (option Z) :=
  map (fun i => getitem a i j) (seq 0 (fst (shape a))).

End Np.

(** ** The world the decoder runs in *)

(** One constructor per [print] of the function, carrying the values the
    message formats. *)
Inductive message :=
| HeaderTooShort
| Channels (num_channels : Z)
| HeaderParams (samples_per_trace bits_per_sample : Z) (scans_per_meter : float)
| InvalidHeader
| ZeroTraceCount
| SpmFallback (default_scans_per_meter : float)
| DataReadOk
| Summary (total_traces : Z) (total_length_m : float)
| CriticalError (e : exn).

(** What was asked of the file object: the bytes [pos, pos + len) handed
    out by a read, and the target of a seek. *)
Inductive io_op :=
| IoRead (pos len : nat)
| IoSeek (pos : nat).

Record world := {
  cursor : nat;
  stdout : list message;
  io : list io_op
}.

Definition initial : world := {| cursor := 0; stdout := []; io := [] |}.

(** State and exceptions. *)
Definition M (A : Type) : Type := world -> (exn + A) * world.

Definition ret {A} (a : A) : M A := fun w => (inr a, w).

Definition bind {A B} (m : M A) (k : A -> M B) : M B :=
  fun w =>
    match m w with
    | (inl e, w') => (inl e, w')
    | (inr a, w') => k a w'
    end.

Definition lift {A} (r : exn + A) : M A := fun w => (r, w).

Notation "x <- m ;; k" := (bind m (fun x => k))
  (at level 61, m at next level, right associativity).
Notation "m ;;; k" := (bind m (fun _ => k))
  (at level 61, right associativity).

Definition print (msg : message) : M unit :=
  fun w => (inr tt, {| cursor := cursor w;
                       stdout := stdout w ++ [msg];
                       io := io w |}).

Section FileObject.

(** The bytes of the file behind the open file object [f]. *)
Variable file : list byte.

(** [f.read(n)]. *)
Definition f_read (n : nat) : M (list byte) :=
  fun w =>
    let got := firstn n (skipn (cursor w) file) in
    (inr got, {| cursor := cursor w + length got;
                 stdout := stdout w;
                 io := io w ++ [IoRead (cursor w) (length got)] |}).

(** [f.seek(0, os.SEEK_END)]. *)
Definition f_seek_end : M unit :=
  fun w => (inr tt, {| cursor := length file;
                       stdout := stdout w;
                       io := io w ++ [IoSeek (length file)] |}).

(** [f.seek(pos)]. *)
Definition f_seek (pos : Z) : M unit :=
  fun w => (inr tt, {| cursor := Z.to_nat pos;
                       stdout := stdout w;
                       io := io w ++ [IoSeek (Z.to_nat pos)] |}).

(** [f.tell()]. *)
Definition f_tell : M Z := fun w => (inr (Z.of_nat (cursor w)), w).

(** [np.fromfile(f, dtype=dt, count=count)] for a positive [count]: the
    array holds the whole items the file still has, at most [count] of
    them; the file is asked for [count] items' bytes, so a short read
    also consumes an incomplete last item and leaves the cursor at the
    end of the file. *)
Definition np_fromfile (dt : Np.dtype) (count : Z) : M (list Z) :=
  fun w =>
    let rest := skipn (cursor w) file in
    let items := Np.read_items (Np.itemsize dt) (Z.to_nat count) rest in
    let len := Nat.min (Np.itemsize dt * Z.to_nat count) (length rest) in
    (inr items, {| cursor := cursor w + len;
                   stdout := stdout w;
                   io := io w ++ [IoRead (cursor w) len] |}).

End FileObject.

(** [a // b] on ints. *)
Definition floordiv (a b : Z) : exn + Z :=
  if b =? 0 then inl ZeroDivisionError else inr (a / b).

(** ** The decoder *)

(** The dict [header_info]. *)
Record header_info := {
  samples_per_trace : Z;
  bits_per_sample : Z;
  scans_per_meter : float;
  trace_count : Z;
  total_length_m : float
}.

(** The pair the function returns; [None] is Python's [None]. *)
Definition result : Type := option Np.ndarray * option header_info.

(** The body of the [with] block (lines 13-79). *)
Definition decode_body (file : list byte) (default_scans_per_meter : float)
  : M result :=
  header_data <- f_read file 1024 ;;
  if (length header_data <? 1024)%nat then
    print HeaderTooShort ;;;
    ret (None, None)
  else
    num_channels <- lift (Struct.unpack_h BigEndian (slice 51 53 header_data)) ;;
    print (Channels num_channels) ;;;
    samples_per_trace <- lift (Struct.unpack_h LittleEndian (slice 4 6 header_data)) ;;
    bits_per_sample <- lift (Struct.unpack_h LittleEndian (slice 6 8 header_data)) ;;
    scans_per_meter <- lift (Struct.unpack_f LittleEndian (slice 40 44 header_data)) ;;
    print (HeaderParams samples_per_trace bits_per_sample scans_per_meter) ;;;
    if (samples_per_trace <=? 0)
       || negb (existsb (Z.eqb bits_per_sample) [8; 16; 32]) then
      print InvalidHeader ;;;
      ret (None, None)
    else
      let data_start_position := 1024 in
      f_seek_end file ;;;
      pos <- f_tell ;;
      let data_size := pos - data_start_position in
      bytes_per_sample <- lift (floordiv bits_per_sample 8) ;;
      let denominator := samples_per_trace * bytes_per_sample in
      total_traces <- lift (floordiv data_size denominator) ;;
      if total_traces <=? 0 then
        print ZeroTraceCount ;;;
        ret (None, None)
      else
        scans_per_meter <-
          (if PyFloat.le_zero scans_per_meter then
             print (SpmFallback default_scans_per_meter) ;;;
             ret default_scans_per_meter
           else ret scans_per_meter) ;;
        f_seek data_start_position ;;;
        let data_type := if bits_per_sample =? 16 then Np.i2_le else Np.i4_le in
        raw_data <- np_fromfile file data_type (total_traces * samples_per_trace) ;;
        radar_data_matrix <-
          lift (Np.reshape_F raw_data (samples_per_trace, total_traces)) ;;
        print DataReadOk ;;;
        total_length_m <- lift (PyFloat.int_truediv total_traces scans_per_meter) ;;
        let header_info :=
          {| samples_per_trace := samples_per_trace;
             bits_per_sample := bits_per_sample;
             scans_per_meter := scans_per_meter;
             trace_count := total_traces;
             total_length_m := total_length_m |} in
        print (Summary total_traces total_length_m) ;;;
        ret (Some radar_data_matrix, Some header_info).

(** [open(file_path, 'rb')]: the path names a file with these bytes, or
    opening it raises. *)
Definition open (file_path : option (list byte)) : M (list byte) :=
  match file_path with
  | Some bytes => ret bytes
  | None => lift (inl FileNotFoundError)
  end.

(** [read_gssi_dzt_final(file_path, default_scans_per_meter)]: the [try]
    block with its [except Exception] handler (lines 81-83). *)
Definition read_gssi_dzt_final (file_path : option (list byte))
    (default_scans_per_meter : float) (w : world) : result * world :=
  match (f <- open file_path ;; decode_body f default_scans_per_meter) w with
  | (inr r, w') => (r, w')
  | (inl e, w') =>
      ((None, None), {| cursor := cursor w';
                        stdout := stdout w' ++ [CriticalError e];
                        io := io w' |})
  end.

(** The decoder started on a fresh file object. *)
Definition decode (file : list byte) (default_scans_per_meter : float)
  : result * world :=
  read_gssi_dzt_final (Some file) default_scans_per_meter initial.

(** ** The format in the words of the specification *)

(** The value of the byte of the file at offset [i]. *)
Definition byte_at (file : list byte) (i : nat) : Z := byte_val (nth i file x00).

(** A 16-bit pattern read as a signed integer. *)
Definition int16 (u : Z) : Z := if u <? 32768 then u else u - 65536.

(** The field table of the header: offset, width, endianness, type. *)
Definition field_samples_per_trace (file : list byte) : Z :=
  int16 (byte_at file 4 + 256 * byte_at file 5).

Definition field_bits_per_sample (file : list byte) : Z :=
  int16 (byte_at file 6 + 256 * byte_at file 7).

Definition field_channel_count (file : list byte) : Z :=
  int16 (256 * byte_at file 51 + byte_at file 52).

Definition field_scans_per_meter (file : list byte) : float :=
  PyFloat.of_bits32
    (byte_at file 40 + 256 * byte_at file 41
     + 65536 * byte_at file 42 + 16777216 * byte_at file 43).

(** [x] is the binary64 float whose value is exactly (-1)^s * M * 2^q:
    a finite float of sign [s], in the canonical form of the format,
    with mantissa [m] and exponent [e] such that m * 2^e = M * 2^q. *)
Definition exact_float (x : float) (s : bool) (M q : Z) : Prop :=
  exists m e,
    x = S754_finite s m e
    /\ valid_binary 53 1024 x = true
    /\ e <= q
    /\ Z.pos m = M * 2 ^ (q - e).

(** The three fields of an IEEE 754 binary32 bit pattern: the sign in
    bit 31, the biased exponent in bits 30 to 23, the fraction in bits
    22 to 0. *)
Definition binary32_sign (u : Z) : bool := Z.odd (u / 2 ^ 31).
Definition binary32_exponent (u : Z) : Z := (u / 2 ^ 23) mod 2 ^ 8.
Definition binary32_fraction (u : Z) : Z := u mod 2 ^ 23.

(** The value IEEE 754 gives the pattern [u]: an infinity or a NaN for
    the exponent 255, a zero or the subnormal F * 2^-149 for the exponent
    0, and (2^23 + F) * 2^(E - 150), that is (1 + F / 2^23) * 2^(E - 127),
    otherwise. *)
Definition binary32_value (u : Z) (x : float) : Prop :=
  let s := binary32_sign u in
  let E := binary32_exponent u in
  let F := binary32_fraction u in
  if E =? 255 then x = (if F =? 0 then S754_infinity s else S754_nan)
  else if E =? 0 then
    (if F =? 0 then x = S754_zero s else exact_float x s F (-149))
  else exact_float x s (2 ^ 23 + F) (E - 150).

(** The offsets the field table names. *)
Definition field_offsets : list nat := [4; 5; 6; 7; 40; 41; 42; 43; 51; 52]%nat.

(** The little-endian value of the [w] bytes from offset [pos] on. *)
Fixpoint le_value (file : list byte) (pos w : nat) : Z :=
  match w with
  | O => 0
  | S k => byte_at file pos + 256 * le_value file (S pos) k
  end.

(** Sample [i] of the data region, for samples of [w] bytes laid out back
    to back after the 1024-byte header. *)
Definition stream_sample (w : nat) (file : list byte) (i : nat) : Z :=
  to_signed w (le_value file (1024 + i * w) w).

(** The size of the data region and the bytes of one trace. *)
Definition data_region_size (file : list byte) : Z := Z.of_nat (length file) - 1024.

Definition bytes_per_trace (file : list byte) : Z :=
  field_samples_per_trace file * (field_bits_per_sample file / 8).

Definition valid_width (bits : Z) : Prop := bits = 8 \/ bits = 16 \/ bits = 32.

(** A density that is zero or negative, and one that is positive. *)
Definition density_nonpositive (x : float) : Prop :=
  match x with
  | S754_zero _ | S754_infinity true | S754_finite true _ _ => True
  | _ => False
  end.

Definition density_positive (x : float) : Prop :=
  match x with
  | S754_infinity false | S754_finite false _ _ => True
  | _ => False
  end.

(** The messages that end a failed decode. *)
Definition failure_message (msg : message) : bool :=
  match msg with
  | HeaderTooShort | InvalidHeader | ZeroTraceCount | CriticalError _ => true
  | _ => false
  end.

(** ** Synthetic files *)

Definition byte_of_Z (z : Z) : byte :=
  match Byte.of_N (Z.to_N (z mod 256)) with
  | Some b => b
  | None => x00
  end.

(** [z.to_bytes(n, 'little')] for the low [n] bytes of [z]. *)
Fixpoint to_bytes_le (n : nat) (z : Z) : list byte :=
  match n with
  | O => []
  | S k => byte_of_Z z :: to_bytes_le k (z / 256)
  end.

(** A 1024-byte header, zero outside the four fields. *)
Definition synthetic_header (samples bits spm_bits channels : Z) : list byte :=
  repeat x00 4 ++ to_bytes_le 2 samples ++ to_bytes_le 2 bits
  ++ repeat x00 32 ++ to_bytes_le 4 spm_bits
  ++ repeat x00 7 ++ rev (to_bytes_le 2 channels) ++ repeat x00 971.

(** Twelve 16-bit samples, three traces of four, and three stray bytes. *)
Definition three_traces : list byte :=
  flat_map (to_bytes_le 2) [1; 2; 3; 4; 5; 6; 7; 8; 9; 10; 11; -1]
  ++ [x09; x09; x09].

(** 100.0 and 200.0 as binary32 bit patterns, and a quiet NaN. *)
Definition bits_100 : Z := 0x42c80000.
Definition bits_200 : Z := 0x43480000.
Definition bits_nan : Z := 0x7fc00000.

Definition float_200 : float := PyFloat.of_bits32 bits_200.

Definition example_file : list byte :=
  synthetic_header 4 16 bits_100 1 ++ three_traces.

(** The same header with a density of zero, with a NaN density, with a
    sample width outside the enum, and with more samples per trace than
    the data region holds. *)
Definition zero_density_file : list byte :=
  synthetic_header 4 16 0 1 ++ three_traces.

Definition nan_density_file : list byte :=
  synthetic_header 4 16 bits_nan 1 ++ three_traces.

Definition bad_width_file : list byte :=
  synthetic_header 4 24 bits_100 1 ++ three_traces.

Definition short_data_file : list byte :=
  synthetic_header 40 16 bits_100 1 ++ three_traces.

(** One sample per trace, 8 bits per sample, four bytes of data. *)
Definition eight_bit_file : list byte :=
  synthetic_header 1 8 bits_100 1 ++ [x01; x02; x03; x04].

(** The same with six bytes of data: one whole 32-bit item and a half. *)
Definition eight_bit_long_file : list byte :=
  synthetic_header 1 8 bits_100 1 ++ [x01; x02; x03; x04; x05; x06].

(** What the decoder returns on [example_file]. *)
Definition example_matrix : Np.ndarray :=
  {| Np.buffer := [1; 2; 3; 4; 5; 6; 7; 8; 9; 10; 11; -1];
     Np.shape := (4%nat, 3%nat);
     Np.strides := (1%nat, 4%nat) |}.

Definition example_info : header_info :=
  {| samples_per_trace := 4;
     bits_per_sample := 16;
     scans_per_meter := PyFloat.of_bits32 bits_100;
     trace_count := 3;
     total_length_m := S754_finite false 8646911284551352 (-58) |}.

Definition example_world : world :=
  {| cursor := 1048;
     stdout := [Channels 1; HeaderParams 4 16 (PyFloat.of_bits32 bits_100);
                DataReadOk;
                Summary 3 (S754_finite false 8646911284551352 (-58))];
     io := [IoRead 0 1024; IoSeek 1051; IoSeek 1024; IoRead 1024 24] |}.

(** And on [zero_density_file] with a default of 200.0. *)
Definition fallback_info : header_info :=
  {| samples_per_trace := 4;
     bits_per_sample := 16;
     scans_per_meter := float_200;
     trace_count := 3;
     total_length_m := S754_finite false 8646911284551352 (-59) |}.

Definition fallback_world : world :=
  {| cursor := 1048;
     stdout := [Channels 1; HeaderParams 4 16 (S754_zero false);
                SpmFallback float_200; DataReadOk;
                Summary 3 (S754_finite false 8646911284551352 (-59))];
     io := [IoRead 0 1024; IoSeek 1051; IoSeek 1024; IoRead 1024 24] |}.

(** ** The runs of the decoder, path by path

    The state and the result the decoder ends in, written out for each of
    its paths; [decode_outcome] below proves it equal to [decode]. *)

(** A header with a complete trace behind it: the read stage. *)
Definition read_outcome (file : list byte) (d : float) : result * world :=
  let S := field_samples_per_trace file in
  let b := field_bits_per_sample file in
  let spm := field_scans_per_meter file in
  let T := data_region_size file / bytes_per_trace file in
  let w := Np.itemsize (if b =? 16 then Np.i2_le else Np.i4_le) in
  let raw := Np.read_items w (Z.to_nat (T * S)) (skipn 1024 file) in
  let spm' := if PyFloat.le_zero spm then d else spm in
  let log :=
    [Channels (field_channel_count file); HeaderParams S b spm]
    ++ (if PyFloat.le_zero spm then [SpmFallback d] else []) in
  let consumed := Nat.min (w * Z.to_nat (T * S)) (length file - 1024) in
  let ops :=
    [IoRead 0 1024; IoSeek (length file); IoSeek 1024;
     IoRead 1024 consumed] in
  let cur := (1024 + consumed)%nat in
  match Np.reshape_F raw (S, T) with
  | inl e =>
      ((None, None),
       {| cursor := cur; stdout := log ++ [CriticalError e]; io := ops |})
  | inr m =>
      match PyFloat.int_truediv T spm' with
      | inl e =>
          ((None, None),
           {| cursor := cur;
              stdout := log ++ [DataReadOk; CriticalError e];
              io := ops |})
      | inr len =>
          ((Some m,
            Some {| samples_per_trace := S;
                    bits_per_sample := b;
                    scans_per_meter := spm';
                    trace_count := T;
                    total_length_m := len |}),
           {| cursor := cur;
              stdout := log ++ [DataReadOk; Summary T len];
              io := ops |})
      end
  end.

(** The test of line 37 on the fields of the header. *)
Definition invalid_header (file : list byte) : bool :=
  (field_samples_per_trace file <=? 0)
  || negb (existsb (Z.eqb (field_bits_per_sample file)) [8; 16; 32]).

(** All paths, from the length test of line 14 on. *)
Definition outcome (file : list byte) (d : float) : result * world :=
  let log :=
    [Channels (field_channel_count file);
     HeaderParams (field_samples_per_trace file) (field_bits_per_sample file)
       (field_scans_per_meter file)] in
  if (length file <? 1024)%nat then
    ((None, None),
     {| cursor := length file; stdout := [HeaderTooShort];
        io := [IoRead 0 (length file)] |})
  else if invalid_header file then
    ((None, None),
     {| cursor := 1024; stdout := log ++ [InvalidHeader];
        io := [IoRead 0 1024] |})
  else if data_region_size file / bytes_per_trace file <=? 0 then
    ((None, None),
     {| cursor := length file; stdout := log ++ [ZeroTraceCount];
        io := [IoRead 0 1024; IoSeek (length file)] |})
  else read_outcome file d.

(** What a successful run determines. *)
Record success_facts (file : list byte) (d : float)
    (m : Np.ndarray) (hi : header_info) (w : world) : Prop := {
  sf_header : (1024 <= length file)%nat;
  sf_samples : 0 < field_samples_per_trace file;
  sf_bits : field_bits_per_sample file = 16 \/ field_bits_per_sample file = 32;
  sf_traces : 0 < data_region_size file / bytes_per_trace file;
  sf_fits :
    data_region_size file / bytes_per_trace file * bytes_per_trace file
    <= data_region_size file;
  sf_buffer :
    Np.buffer m =
    Np.read_items (Z.to_nat (field_bits_per_sample file / 8))
      (Z.to_nat (data_region_size file / bytes_per_trace file
                 * field_samples_per_trace file))
      (skipn 1024 file);
  sf_size :
    length (Np.buffer m) =
    Z.to_nat (data_region_size file / bytes_per_trace file
              * field_samples_per_trace file);
  sf_shape :
    Np.shape m =
    (Z.to_nat (field_samples_per_trace file),
     Z.to_nat (data_region_size file / bytes_per_trace file));
  sf_strides : Np.strides m = (1%nat, Z.to_nat (field_samples_per_trace file));
  sf_hi_samples : samples_per_trace hi = field_samples_per_trace file;
  sf_hi_bits : bits_per_sample hi = field_bits_per_sample file;
  sf_hi_spm :
    scans_per_meter hi =
    if PyFloat.le_zero (field_scans_per_meter file) then d
    else field_scans_per_meter file;
  sf_hi_traces :
    trace_count hi = data_region_size file / bytes_per_trace file;
  sf_hi_length :
    PyFloat.int_truediv (trace_count hi) (scans_per_meter hi)
    = inr (total_length_m hi);
  sf_world :
    w = {| cursor := (1024 + Z.to_nat (field_bits_per_sample file / 8)
                             * length (Np.buffer m))%nat;
           stdout :=
             [Channels (field_channel_count file);
              HeaderParams (field_samples_per_trace file)
                (field_bits_per_sample file) (field_scans_per_meter file)]
             ++ (if PyFloat.le_zero (field_scans_per_meter file)
                 then [SpmFallback d] else [])
             ++ [DataReadOk; Summary (trace_count hi) (total_length_m hi)];
           io := [IoRead 0 1024; IoSeek (length file); IoSeek 1024;
                  IoRead 1024 (Z.to_nat (field_bits_per_sample file / 8)
                               * length (Np.buffer m))] |}
}.

(** A run ends in (None, None) behind a failure message, or in a matrix
    and a record with no failure message on the log. *)
Definition failed (r : result * world) : Prop :=
  fst r = (None, None)
  /\ failure_message (last (stdout (snd r)) DataReadOk) = true.

Definition succeeded (r : result * world) : Prop :=
  (exists m hi, fst r = (Some m, Some hi))
  /\ forall msg, In msg (stdout (snd r)) -> failure_message msg = false.

(** ** Exporting images (MAIN.py, lines 86-123) *)

(** A Python number passed as the length threshold. *)
Inductive number :=
| PyInt (n : Z)
| PyFloatNum (x : float).

(** [x < n] for a float and an int: Python compares the exact values. *)
Definition float_lt_int (x : float) (n : Z) : bool :=
  match x with
  | S754_nan => false
  | S754_infinity s => s
  | S754_zero _ => 0 <? n
  | S754_finite s m e =>
      let v := if s then Z.neg m else Z.pos m in
      if 0 <=? e then v * 2 ^ e <? n else v <? n * 2 ^ (- e)
  end.

(** [x < y] with [y] an int or a float. *)
Definition float_lt (x : float) (y : number) : bool :=
  match y with
  | PyInt n => float_lt_int x n
  | PyFloatNum y => SFltb x y
  end.

(** [list(range(start, stop, step))]: a zero step is a [ValueError]. *)
Definition range (start stop step : Z) : exn + list Z :=
  if step =? 0 then inl ValueError
  else
    let len :=
      if 0 <? step then (stop - start + step - 1) / step
      else (start - stop - step - 1) / (- step) in
    inr (map (fun k => start + Z.of_nat k * step) (seq 0 (Z.to_nat len))).

(** [enumerate(l)]. *)
Definition enumerate {A} (l : list A) : list (Z * A) :=
  combine (map Z.of_nat (seq 0 (length l))) l.

(** [a[:, lo:hi]] for [0 <= lo] and [0 <= hi]: the bounds are clipped to
    the number of columns, and the result is a view on the items of [a]
    from the first column kept on. *)
Definition slice_columns (a : Np.ndarray) (lo hi : Z) : Np.ndarray :=
  let cols := Z.of_nat (snd (Np.shape a)) in
  let lo' := Z.min lo cols in
  let hi' := Z.min hi cols in
  {| Np.buffer := skipn (Z.to_nat lo' * snd (Np.strides a)) (Np.buffer a);
     Np.shape := (fst (Np.shape a), Z.to_nat (hi' - lo'));
     Np.strides := Np.strides a |}.

(** [a.size]. *)
Definition array_size (a : Np.ndarray) : nat :=
  fst (Np.shape a) * snd (Np.shape a).

(** The keyword arguments the export reads; [None] is an absent key. *)
Record kwargs := {
  kw_length_threshold_m : option number;
  kw_window_traces : option Z;
  kw_dpi : option Z
}.

(** [kwargs.get(key, default)]. *)
Definition kwargs_get {A} (entry : option A) (default : A) : A :=
  match entry with
  | Some v => v
  | None => default
  end.

(** The formatted strings, by the values they format. *)
Inductive plot_title :=
| FullTitle (base_filename : String.string) (total_length : float)
| WindowTitle (base_filename : String.string) (index : Z).

Inductive image_path :=
| FullPath (output_dir base_filename : String.string)
| WindowPath (output_dir base_filename : String.string) (index : Z).

(** One figure: what [imshow] is given, the title, the file and the dpi
    of [savefig]. *)
Record figure := {
  fig_data : Np.ndarray;
  fig_title : plot_title;
  fig_path : image_path;
  fig_dpi : Z
}.

(** The lines the export prints. *)
Inductive export_message :=
| SingleImage (total_length : float) (length_threshold : number)
| Splitting (total_length : float) (length_threshold : number)
| ImageSaved (path : image_path)
| SaveFailed (path : image_path)
| Processed (base_filename : String.string).

(** The figures drawn so far, the files written and the lines printed. *)
Record studio := {
  drawn : list figure;
  written : list image_path;
  console : list export_message
}.

Definition empty_studio : studio :=
  {| drawn := []; written := []; console := [] |}.

Definition E (A : Type) : Type := studio -> (exn + A) * studio.

Definition retE {A} (a : A) : E A := fun st => (inr a, st).

Definition bindE {A B} (m : E A) (k : A -> E B) : E B :=
  fun st =>
    match m st with
    | (inl e, st') => (inl e, st')
    | (inr a, st') => k a st'
    end.

Definition liftE {A} (r : exn + A) : E A := fun st => (r, st).

Definition say (msg : export_message) : E unit :=
  fun st => (inr tt, {| drawn := drawn st;
                        written := written st;
                        console := console st ++ [msg] |}).

(** A [for] loop over a list. *)
Fixpoint for_each {A} (l : list A) (body : A -> E unit) : E unit :=
  match l with
  | [] => retE tt
  | x :: rest => bindE (body x) (fun _ => for_each rest body)
  end.

Section ExportImages.

(** Whether [plt.savefig] can write the file; a failure is the exception
    the function catches. *)
Variable savefig_ok : image_path -> bool.

(** [_plot_and_save_image(data, title, output_path, dpi)].
    [np.percentile(data, 99)] (line 88) stands outside the [try]: on an
    array without items it raises [IndexError], before anything is drawn,
    and the exception leaves the function. On an array with items the
    figure is drawn, the drawing calls of lines 87 and 90-94 being taken
    to succeed, and saving it is tried and reported; saving is the one
    step the function guards, and a failed save is caught and printed
    (lines 95-99). *)
Definition _plot_and_save_image (data : Np.ndarray) (title : plot_title)
    (output_path : image_path) (dpi : Z) : E unit :=
  fun st =>
    let fig := {| fig_data := data; fig_title := title;
                  fig_path := output_path; fig_dpi := dpi |} in
    if (array_size data =? 0)%nat then (inl IndexError, st)
    else if savefig_ok output_path then
      (inr tt, {| drawn := drawn st ++ [fig];
                  written := written st ++ [output_path];
                  console := console st ++ [ImageSaved output_path] |})
    else
      (inr tt, {| drawn := drawn st ++ [fig];
                  written := written st;
                  console := console st ++ [SaveFailed output_path] |}).

(** [process_and_export_images(radar_data, header_info, base_filename,
    output_dir, **kwargs)]. *)
Definition process_and_export_images (radar_data : Np.ndarray)
    (info : header_info) (base_filename output_dir : String.string)
    (kw : kwargs) : E unit :=
  let length_threshold := kwargs_get (kw_length_threshold_m kw) (PyInt 100) in
  let window_length_traces := kwargs_get (kw_window_traces kw) 1200 in
  let output_dpi := kwargs_get (kw_dpi kw) 300 in
  let total_length := total_length_m info in
  bindE
    (if float_lt total_length length_threshold then
       bindE (say (SingleImage total_length length_threshold)) (fun _ =>
       _plot_and_save_image radar_data
         (FullTitle base_filename total_length)
         (FullPath output_dir base_filename) output_dpi)
     else
       bindE (say (Splitting total_length length_threshold)) (fun _ =>
       let total_traces := trace_count info in
       bindE (liftE (range 0 total_traces window_length_traces)) (fun starts =>
       for_each (enumerate starts) (fun '(i, start_trace) =>
         let end_trace :=
           Z.min (start_trace + window_length_traces) total_traces in
         if start_trace =? end_trace then retE tt
         else
           let data_window := slice_columns radar_data start_trace end_trace in
           _plot_and_save_image data_window
             (WindowTitle base_filename (i + 1))
             (WindowPath output_dir base_filename (i + 1)) output_dpi))))
    (fun _ => say (Processed base_filename)).

End ExportImages.

(** The figure of window [k] when the traces are cut every [window]
    columns: columns [k * window] up to the next cut or the last trace. *)
Definition window_figure (radar_data : Np.ndarray)
    (base_filename output_dir : String.string)
    (window total_traces dpi : Z) (k : nat) : figure :=
  {| fig_data :=
       slice_columns radar_data (Z.of_nat k * window)
         (Z.min (Z.of_nat k * window + window) total_traces);
     fig_title := WindowTitle base_filename (Z.of_nat k + 1);
     fig_path := WindowPath output_dir base_filename (Z.of_nat k + 1);
     fig_dpi := dpi |}.

(** The number of windows: the trace count over the window, rounded up. *)
Definition window_count (window total_traces : Z) : nat :=
  Z.to_nat ((total_traces + window - 1) / window).

(** What drawing figure [fig] adds to the studio. *)
Definition draw (savefig_ok : image_path -> bool) (st : studio) (fig : figure)
  : studio :=
  {| drawn := drawn st ++ [fig];
     written := written st
                ++ (if savefig_ok (fig_path fig) then [fig_path fig] else []);
     console := console st
                ++ [if savefig_ok (fig_path fig) then ImageSaved (fig_path fig)
                    else SaveFailed (fig_path fig)] |}.

(** The keyword arguments [main] passes, and a setting that cuts the
    example into windows of two traces. *)
Definition main_kwargs : kwargs :=
  {| kw_length_threshold_m := Some (PyInt 100);
     kw_window_traces := Some 1200;
     kw_dpi := Some 300 |}.

Definition narrow_kwargs : kwargs :=
  {| kw_length_threshold_m := Some (PyInt 0);
     kw_window_traces := Some 2;
     kw_dpi := None |}.

Definition broken_kwargs : kwargs :=
  {| kw_length_threshold_m := Some (PyInt 0);
     kw_window_traces := Some 0;
     kw_dpi := None |}.

(** The record of the example with twice the traces its matrix has. *)
Definition overlong_info : header_info :=
  {| samples_per_trace := 4;
     bits_per_sample := 16;
     scans_per_meter := PyFloat.of_bits32 bits_100;
     trace_count := 6;
     total_length_m := S754_finite false 8646911284551352 (-57) |}.

(** A matrix of four rows and no column. *)
Definition empty_matrix : Np.ndarray :=
  {| Np.buffer := []; Np.shape := (4%nat, 0%nat); Np.strides := (1%nat, 4%nat) |}.

(** ** The batch driver (MAIN.py, lines 126-156) *)

(** File names, as lists of characters. *)
Definition chars (s : String.string) : list Ascii.ascii :=
  String.list_ascii_of_string s.

(** [c.lower()] on the letters A-Z. Characters outside ASCII are left as
    they are: none of them lowers to one of the characters of ".dzt", so
    the suffix test below is not affected. *)
Definition lower_char (c : Ascii.ascii) : Ascii.ascii :=
  let n := Ascii.nat_of_ascii c in
  if (65 <=? n)%nat && (n <=? 90)%nat then Ascii.ascii_of_nat (n + 32) else c.

Definition lower (s : list Ascii.ascii) : list Ascii.ascii := map lower_char s.

Definition chars_eqb (a b : list Ascii.ascii) : bool :=
  if list_eq_dec Ascii.ascii_dec a b then true else false.

(** [s.endswith(suffix)]. *)
Definition endswith (s suffix : list Ascii.ascii) : bool :=
  (length suffix <=? length s)%nat
  && chars_eqb (skipn (length s - length suffix) s) suffix.

Definition dot : Ascii.ascii := Ascii.ascii_of_nat 46.

Definition dzt_suffix : list Ascii.ascii :=
  [dot; Ascii.ascii_of_nat 100; Ascii.ascii_of_nat 122; Ascii.ascii_of_nat 116].

(** [p.rfind('.')]: the index of the last dot. *)
Fixpoint rfind_dot (p : list Ascii.ascii) : option nat :=
  match p with
  | [] => None
  | c :: rest =>
      match rfind_dot rest with
      | Some i => Some (S i)
      | None => if Ascii.eqb c dot then Some 0%nat else None
      end
  end.

(** [os.path.splitext(p)[0]] for a name without a directory separator:
    the name up to its last dot, unless only dots come before it. *)
Definition splitext_root (p : list Ascii.ascii) : list Ascii.ascii :=
  match rfind_dot p with
  | None => p
  | Some i =>
      if forallb (fun c => Ascii.eqb c dot) (firstn i p) then p
      else firstn i p
  end.

(** The lines [main] and the functions it calls print. *)
Inductive main_line :=
| DecoderSays (filename : String.string) (msg : message)
| ExportSays (msg : export_message)
| Separator
| NoDztFilesFound.

(** What a run of [main] leaves behind. *)
Record session := {
  screen : list main_line;
  gallery : list figure;
  saved : list image_path;
  made_dirs : list String.string
}.

(** What [main] can raise: an exception out of the export, or the
    subscript of a [None] record. *)
Inductive main_exn :=
| ExportRaised (e : exn)
| NoneNotSubscriptable.

Definition DEFAULT_SCANS_PER_METER : float := float_200.

(** [os.path.join('.', 'JPG_Output_Final')]. *)
Module Paths.
Import String.
Definition data_directory : string := ".".
Definition output_directory : string :=
  (data_directory ++ "/" ++ "JPG_Output_Final")%string.
End Paths.

Section Main.

Variable savefig_ok : image_path -> bool.

(** The body of the loop of lines 139-153 for one directory entry: its
    name, and its bytes when it can be opened. The flag is
    [found_files]. *)
Definition main_step (entry : String.string * option (list byte))
    (found : bool) (s : session) : (main_exn + bool) * session :=
  let '(filename, contents) := entry in
  if endswith (lower (chars filename)) dzt_suffix then
    let '((radar_data, info), w) :=
      read_gssi_dzt_final contents DEFAULT_SCANS_PER_METER initial in
    let s1 := {| screen := screen s ++ map (DecoderSays filename) (stdout w);
                 gallery := gallery s; saved := saved s;
                 made_dirs := made_dirs s |} in
    match radar_data with
    | Some data =>
        let base_name :=
          String.string_of_list_ascii (splitext_root (chars filename)) in
        match info with
        | None => (inl NoneNotSubscriptable, s1)
        | Some hi =>
            let '(r, st) :=
              process_and_export_images savefig_ok data hi base_name
                Paths.output_directory main_kwargs
                {| drawn := gallery s1; written := saved s1;
                   console := [] |} in
            let s2 := {| screen := screen s1 ++ map ExportSays (console st);
                         gallery := drawn st; saved := written st;
                         made_dirs := made_dirs s1 |} in
            match r with
            | inl e => (inl (ExportRaised e), s2)
            | inr _ =>
                (inr true,
                 {| screen := screen s2 ++ [Separator];
                    gallery := gallery s2; saved := saved s2;
                    made_dirs := made_dirs s2 |})
            end
        end
    | None =>
        (inr true,
         {| screen := screen s1 ++ [Separator];
            gallery := gallery s1; saved := saved s1;
            made_dirs := made_dirs s1 |})
    end
  else (inr found, s).

Fixpoint main_loop (listing : list (String.string * option (list byte)))
    (found : bool) (s : session) : (main_exn + bool) * session :=
  match listing with
  | [] => (inr found, s)
  | entry :: rest =>
      match main_step entry found s with
      | (inl e, s') => (inl e, s')
      | (inr found', s') => main_loop rest found' s'
      end
  end.

(** [main()], given whether the output directory exists and what
    [os.listdir] returns, in the order it returns it; making the
    directory, listing it and printing are taken to succeed, so that
    the exceptions [main] can end in are those of the export and of the
    subscripts of the record. *)
Definition main (output_exists : bool)
    (listing : list (String.string * option (list byte)))
  : (main_exn + unit) * session :=
  let s0 := {| screen := []; gallery := []; saved := [];
               made_dirs := if output_exists then []
                            else [Paths.output_directory] |} in
  match main_loop listing false s0 with
  | (inl e, s) => (inl e, s)
  | (inr found_files, s) =>
      if negb found_files then
        (inr tt, {| screen := screen s ++ [NoDztFilesFound];
                    gallery := gallery s; saved := saved s;
                    made_dirs := made_dirs s |})
      else (inr tt, s)
  end.

End Main.

(** The figures of one export, by the branch it takes. *)
Definition export_figures (radar_data : Np.ndarray) (info : header_info)
    (base_filename output_dir : String.string) (kw : kwargs) : list figure :=
  if float_lt (total_length_m info)
       (kwargs_get (kw_length_threshold_m kw) (PyInt 100)) then
    [{| fig_data := radar_data;
        fig_title := FullTitle base_filename (total_length_m info);
        fig_path := FullPath output_dir base_filename;
        fig_dpi := kwargs_get (kw_dpi kw) 300 |}]
  else
    map (window_figure radar_data base_filename output_dir
           (kwargs_get (kw_window_traces kw) 1200) (trace_count info)
           (kwargs_get (kw_dpi kw) 300))
      (seq 0 (window_count (kwargs_get (kw_window_traces kw) 1200)
                (trace_count info))).

(** The suffix test of line 140. *)
Definition is_dzt (filename : String.string) : bool :=
  endswith (lower (chars filename)) dzt_suffix.

(** The figures one directory entry gives rise to, taken by itself. *)
Definition entry_figures (entry : String.string * option (list byte))
  : list figure :=
  if is_dzt (fst entry) then
    match fst (read_gssi_dzt_final (snd entry) DEFAULT_SCANS_PER_METER initial)
    with
    | (Some data, Some hi) =>
        export_figures data hi
          (String.string_of_list_ascii (splitext_root (chars (fst entry))))
          Paths.output_directory main_kwargs
    | _ => []
    end
  else [].

Definition is_separator (l : main_line) : bool :=
  match l with Separator => true | _ => false end.

Definition is_no_files_notice (l : main_line) : bool :=
  match l with NoDztFilesFound => true | _ => false end.

(** A small directory: a recording, a text file, a name that cannot be
    opened and a recording with an invalid header. *)
Module Listing.
Import String.
Definition example : list (string * option (list byte)) :=
  [("a.DZT", Some example_file); ("notes.txt", Some example_file);
   ("b.dzt", None); (".dzt", Some bad_width_file)]%string.
Definition no_recordings : list (string * option (list byte)) :=
  [("notes.txt", Some example_file); ("dzt", Some example_file)]%string.
End Listing.

(** ** Lists and bytes *)

Lemma skipn_nth_cons {A} (n : nat) (l : list A) (d : A) :
  (n < length l)%nat -> skipn n l = nth n l d :: skipn (S n) l.
Proof.
  revert l; induction n as [|n IH]; intros [|x l] H; simpl in *; try lia.
  - reflexivity.
  - apply IH; lia.
Qed.

Lemma slice_two {A} (lo hi : nat) (l : list A) (d : A) :
  (hi - lo = 2)%nat -> (hi <= length l)%nat ->
  slice lo hi l = [nth lo l d; nth (S lo) l d].
Proof.
  intros Hw Hl. unfold slice. rewrite Hw.
  rewrite (skipn_nth_cons lo l d) by lia.
  rewrite (skipn_nth_cons (S lo) l d) by lia.
  reflexivity.
Qed.

Lemma slice_four {A} (lo hi : nat) (l : list A) (d : A) :
  (hi - lo = 4)%nat -> (hi <= length l)%nat ->
  slice lo hi l =
  [nth lo l d; nth (S lo) l d; nth (S (S lo)) l d; nth (S (S (S lo))) l d].
Proof.
  intros Hw Hl. unfold slice. rewrite Hw.
  rewrite (skipn_nth_cons lo l d) by lia.
  rewrite (skipn_nth_cons (S lo) l d) by lia.
  rewrite (skipn_nth_cons (S (S lo)) l d) by lia.
  rewrite (skipn_nth_cons (S (S (S lo))) l d) by lia.
  reflexivity.
Qed.

Lemma nth_header {A} (i : nat) (l : list A) (d : A) :
  (i < 1024)%nat -> nth i (firstn 1024 l) d = nth i l d.
Proof.
  intros H. rewrite nth_firstn.
  destruct (Nat.ltb_spec i 1024); [reflexivity | lia].
Qed.

Lemma byte_val_range (b : byte) : 0 <= byte_val b < 256.
Proof.
  unfold byte_val. pose proof (Byte.to_N_bounded b). lia.
Qed.

Lemma to_signed_2 (u : Z) : to_signed 2 u = int16 u.
Proof. reflexivity. Qed.

Lemma from_bytes_le_value (file : list byte) (w pos : nat) :
  (pos + w <= length file)%nat ->
  from_bytes_le (firstn w (skipn pos file)) = le_value file pos w.
Proof.
  revert pos; induction w as [|w IH]; intros pos H.
  - reflexivity.
  - rewrite (skipn_nth_cons pos file x00) by lia.
    cbn [firstn le_value]. unfold from_bytes_le in *. cbn [fold_right].
    rewrite IH by lia. reflexivity.
Qed.

(** ** The header fields *)

Section Header.
Variable file : list byte.
Hypothesis Hlen : (1024 <= length file)%nat.

Lemma unpack_channel_count :
  Struct.unpack_h BigEndian (slice 51 53 (firstn 1024 file))
  = inr (field_channel_count file).
Proof.
  rewrite (slice_two 51 53 _ x00); [| reflexivity | rewrite firstn_length_le; lia].
  rewrite !nth_header by lia.
  unfold Struct.unpack_h, field_channel_count, byte_at.
  cbn [length Nat.eqb from_bytes rev app from_bytes_le fold_right].
  rewrite to_signed_2. do 2 f_equal. lia.
Qed.

Lemma unpack_samples_per_trace :
  Struct.unpack_h LittleEndian (slice 4 6 (firstn 1024 file))
  = inr (field_samples_per_trace file).
Proof.
  rewrite (slice_two 4 6 _ x00); [| reflexivity | rewrite firstn_length_le; lia].
  rewrite !nth_header by lia.
  unfold Struct.unpack_h, field_samples_per_trace, byte_at.
  cbn [length Nat.eqb from_bytes from_bytes_le fold_right].
  rewrite to_signed_2. do 2 f_equal. lia.
Qed.

Lemma unpack_bits_per_sample :
  Struct.unpack_h LittleEndian (slice 6 8 (firstn 1024 file))
  = inr (field_bits_per_sample file).
Proof.
  rewrite (slice_two 6 8 _ x00); [| reflexivity | rewrite firstn_length_le; lia].
  rewrite !nth_header by lia.
  unfold Struct.unpack_h, field_bits_per_sample, byte_at.
  cbn [length Nat.eqb from_bytes from_bytes_le fold_right].
  rewrite to_signed_2. do 2 f_equal. lia.
Qed.

Lemma unpack_scans_per_meter :
  Struct.unpack_f LittleEndian (slice 40 44 (firstn 1024 file))
  = inr (field_scans_per_meter file).
Proof.
  rewrite (slice_four 40 44 _ x00); [| reflexivity | rewrite firstn_length_le; lia].
  rewrite !nth_header by lia.
  unfold Struct.unpack_f, field_scans_per_meter, byte_at.
  cbn [length Nat.eqb from_bytes from_bytes_le fold_right].
  do 2 f_equal. lia.
Qed.
End Header.

Lemma floordiv_nonzero (a b : Z) : b <> 0 -> floordiv a b = inr (a / b).
Proof.
  intros H. unfold floordiv. destruct (Z.eqb_spec b 0); [contradiction | reflexivity].
Qed.

Lemma valid_header_bytes_per_trace (file : list byte) :
  invalid_header file = false ->
  0 < field_samples_per_trace file /\ valid_width (field_bits_per_sample file)
  /\ 0 < bytes_per_trace file.
Proof.
  unfold invalid_header, bytes_per_trace, valid_width. intros H.
  apply orb_false_elim in H. destruct H as [Hs Hb].
  apply Z.leb_gt in Hs. apply negb_false_iff in Hb.
  cbn [existsb] in Hb.
  destruct (Z.eqb_spec (field_bits_per_sample file) 8) as [->|];
    [cbn; repeat split; auto; lia|].
  destruct (Z.eqb_spec (field_bits_per_sample file) 16) as [->|];
    [cbn; repeat split; auto; lia|].
  destruct (Z.eqb_spec (field_bits_per_sample file) 32) as [->|];
    [cbn; repeat split; auto; lia|].
  discriminate.
Qed.

Ltac run :=
  cbv [bind ret lift print f_read f_seek_end f_tell f_seek np_fromfile
       cursor stdout io initial].

Lemma decode_outcome (file : list byte) (d : float) :
  decode file d = outcome file d.
Proof.
  unfold decode, read_gssi_dzt_final, open, decode_body, outcome.
  run. change (skipn 0 file) with file.
  destruct (Nat.ltb_spec (length file) 1024) as [Hlt|Hge].
  - rewrite firstn_all2 by lia.
    destruct (Nat.ltb_spec (length file) 1024) as [_|]; [|lia].
    run. reflexivity.
  - rewrite firstn_length_le by lia.
    change (1024 <? 1024)%nat with false. cbv iota.
    rewrite unpack_channel_count, unpack_samples_per_trace,
      unpack_bits_per_sample, unpack_scans_per_meter by assumption.
    run.
    fold (invalid_header file).
    destruct (invalid_header file) eqn:Hinv.
    + run. reflexivity.
    + destruct (valid_header_bytes_per_trace file Hinv) as (HS & Hb & HB).
      run.
      rewrite (floordiv_nonzero _ 8) by discriminate.
      fold (bytes_per_trace file).
      rewrite (floordiv_nonzero _ (bytes_per_trace file)) by lia.
      fold (data_region_size file).
      destruct (data_region_size file / bytes_per_trace file <=? 0) eqn:HT.
      * run. reflexivity.
      * change (Z.to_nat 1024) with 1024%nat.
        unfold read_outcome. cbv zeta.
        rewrite <- (length_skipn 1024 file).
        destruct (PyFloat.le_zero (field_scans_per_meter file));
          run;
          (destruct (Np.reshape_F _ _) as [e|m]; [reflexivity|]);
          (destruct (PyFloat.int_truediv _ _) as [e|len]; reflexivity).
Qed.

(** ** Reading items from the stream *)

Lemma read_items_fits (w n : nat) (bs : list byte) :
  (length (Np.read_items w n bs) * w <= length bs)%nat.
Proof.
  revert bs; induction n as [|n IH]; intros bs; cbn [Np.read_items].
  - simpl; lia.
  - destruct (Nat.ltb_spec (length (firstn w bs)) w) as [|Hw].
    + simpl; lia.
    + rewrite length_firstn in Hw. specialize (IH (skipn w bs)).
      rewrite length_skipn in IH. cbn [length]. lia.
Qed.

Lemma read_items_full (w n : nat) (bs : list byte) :
  (n * w <= length bs)%nat -> length (Np.read_items w n bs) = n.
Proof.
  revert bs; induction n as [|n IH]; intros bs H; cbn [Np.read_items].
  - reflexivity.
  - destruct (Nat.ltb_spec (length (firstn w bs)) w) as [Hw|Hw].
    + rewrite length_firstn in Hw. lia.
    + cbn [length]. rewrite IH; [reflexivity|].
      rewrite length_skipn. lia.
Qed.

Lemma read_items_nth (w n i : nat) (bs : list byte) :
  (i < n)%nat -> (i * w + w <= length bs)%nat ->
  nth_error (Np.read_items w n bs) i
  = Some (to_signed w (from_bytes_le (firstn w (skipn (i * w) bs)))).
Proof.
  revert i bs; induction n as [|n IH]; intros i bs Hi Hl; [lia|].
  cbn [Np.read_items].
  destruct (Nat.ltb_spec (length (firstn w bs)) w) as [Hw|Hw].
  - rewrite length_firstn in Hw. lia.
  - destruct i as [|i]; cbn [nth_error].
    + reflexivity.
    + rewrite IH; [| lia | rewrite length_skipn; lia].
      rewrite skipn_skipn. replace (S i * w)%nat with (i * w + w)%nat by lia. reflexivity.
Qed.

(** Item [i] of the stream read from offset 1024 is sample [i] of the
    data region. *)
Lemma read_items_stream_sample (w n i : nat) (file : list byte) :
  (i < n)%nat -> (1024 + i * w + w <= length file)%nat ->
  nth_error (Np.read_items w n (skipn 1024 file)) i
  = Some (stream_sample w file i).
Proof.
  intros Hi Hl.
  rewrite read_items_nth; [| assumption | rewrite length_skipn; lia].
  rewrite skipn_skipn, from_bytes_le_value by lia.
  unfold stream_sample. do 3 f_equal. lia.
Qed.

(** ** Successful runs *)

Lemma reshape_F_inv (a : list Z) (r c : Z) (m : Np.ndarray) :
  Np.reshape_F a (r, c) = inr m ->
  Z.of_nat (length a) = r * c /\
  m = {| Np.buffer := a; Np.shape := (Z.to_nat r, Z.to_nat c);
         Np.strides := (1%nat, Z.to_nat r) |}.
Proof.
  unfold Np.reshape_F.
  destruct ((0 <=? r) && (0 <=? c) && (Z.of_nat (length a) =? r * c)) eqn:E;
    [|discriminate].
  intros [= <-]. apply andb_prop in E. destruct E as [_ E].
  apply Z.eqb_eq in E. split; [assumption | reflexivity].
Qed.

Lemma decode_success_inv (file : list byte) (d : float)
    (m : Np.ndarray) (hi : header_info) (w : world) :
  decode file d = (Some m, Some hi, w) -> success_facts file d m hi w.
Proof.
  rewrite decode_outcome. unfold outcome.
  destruct (Nat.ltb_spec (length file) 1024) as [|Hlen]; [discriminate|].
  destruct (invalid_header file) eqn:Hinv; [discriminate|].
  destruct (valid_header_bytes_per_trace file Hinv) as (HS & Hb & HB).
  destruct (Z.leb_spec (data_region_size file / bytes_per_trace file) 0)
    as [|HT]; [discriminate|].
  unfold read_outcome. cbv zeta.
  destruct (Np.reshape_F _ _) as [e|m'] eqn:Hre; [discriminate|].
  destruct (PyFloat.int_truediv _ _) as [e|len] eqn:Hdiv; [discriminate|].
  intros H. apply pair_equal_spec in H. destruct H as [H <-].
  apply pair_equal_spec in H. destruct H as [Hm Hhi].
  apply (f_equal (fun o => match o with Some x => x | None => m end)) in Hm.
  apply (f_equal (fun o => match o with Some x => x | None => hi end)) in Hhi.
  cbv beta iota in Hm, Hhi. subst m' hi.
  apply reshape_F_inv in Hre. destruct Hre as [Hsize ->].
  pose proof (Z.mul_div_le (data_region_size file) (bytes_per_trace file) HB) as Hle.
  pose proof (Z.mul_succ_div_gt (data_region_size file) (bytes_per_trace file) HB) as Hgt.
  pose proof (read_items_fits
                (Np.itemsize (if field_bits_per_sample file =? 16
                              then Np.i2_le else Np.i4_le))
                (Z.to_nat (data_region_size file / bytes_per_trace file
                           * field_samples_per_trace file))
                (skipn 1024 file)) as Hfit.
  rewrite length_skipn in Hfit.
  assert (Hw : field_bits_per_sample file = 16 \/ field_bits_per_sample file = 32).
  { destruct Hb as [H8|[H16|H32]]; [exfalso | auto | auto].
    unfold bytes_per_trace, data_region_size in *. rewrite H8 in *.
    change (8 / 8) with 1 in *. cbn [Z.eqb Pos.eqb Np.itemsize] in *.
    nia. }
  assert (Hwidth :
    Np.itemsize (if field_bits_per_sample file =? 16 then Np.i2_le else Np.i4_le)
    = Z.to_nat (field_bits_per_sample file / 8)).
  { destruct Hw as [-> | ->]; reflexivity. }
  rewrite Hwidth in *.
  rewrite (Nat.min_l _ (length file - 1024)) by lia.
  assert (Hn :
    length (Np.read_items (Z.to_nat (field_bits_per_sample file / 8))
              (Z.to_nat (data_region_size file / bytes_per_trace file
                         * field_samples_per_trace file))
              (skipn 1024 file))
    = Z.to_nat (data_region_size file / bytes_per_trace file
                * field_samples_per_trace file)) by lia.
  split; cbn [Np.buffer Np.shape Np.strides samples_per_trace bits_per_sample
              scans_per_meter trace_count total_length_m];
    rewrite ?Hn; try assumption; try reflexivity; lia.
Qed.

(** ** Floats with an exact value *)

Lemma digits2_pos_bounds (p : positive) :
  2 ^ (Z.pos (digits2_pos p) - 1) <= Z.pos p < 2 ^ Z.pos (digits2_pos p).
Proof.
  induction p as [p IH|p IH|]; cbn [digits2_pos].
  - rewrite Pos2Z.inj_succ, (Pos2Z.inj_xI p).
    replace (Z.succ (Z.pos (digits2_pos p)) - 1) with
      (Z.succ (Z.pos (digits2_pos p) - 1)) by lia.
    rewrite !Z.pow_succ_r by lia. lia.
  - rewrite Pos2Z.inj_succ, (Pos2Z.inj_xO p).
    replace (Z.succ (Z.pos (digits2_pos p)) - 1) with
      (Z.succ (Z.pos (digits2_pos p) - 1)) by lia.
    rewrite !Z.pow_succ_r by lia. lia.
  - change (1 <= 1 < 2). lia.
Qed.

Lemma digits2_pos_iter_xO (p k : positive) :
  digits2_pos (Pos.iter xO p k) = (digits2_pos p + k)%positive.
Proof.
  induction k as [|k IH] using Pos.peano_ind.
  - cbn. lia.
  - rewrite Pos.iter_succ. cbn [digits2_pos]. rewrite IH. lia.
Qed.

Lemma iter_xO_value (p k : positive) :
  Z.pos (Pos.iter xO p k) = Z.pos p * 2 ^ Z.pos k.
Proof.
  induction k as [|k IH] using Pos.peano_ind.
  - cbn [Pos.iter]. rewrite (Pos2Z.inj_xO p). change (2 ^ 1) with 2. lia.
  - rewrite Pos.iter_succ, Pos2Z.inj_succ, Z.pow_succ_r by lia.
    rewrite (Pos2Z.inj_xO (Pos.iter xO p k)), IH. lia.
Qed.

(** Rounding a mantissa that already has its canonical exponent. *)
Lemma binary_round_aux_canonical (s : bool) (m : positive) (e : Z) :
  fexp 53 1024 (Z.pos (digits2_pos m) + e) = e ->
  e <= 1024 - 53 ->
  binary_round_aux 53 1024 s (Z.pos m) e loc_Exact = S754_finite s m e.
Proof.
  intros Hfexp He.
  unfold binary_round_aux, shr_fexp. cbn [Zdigits2 shr_record_of_loc].
  rewrite Hfexp, Z.sub_diag.
  cbn [shr shr_m loc_of_shr_record round_nearest_even Zdigits2].
  rewrite Hfexp, Z.sub_diag. cbn [shr shr_m].
  destruct (Z.leb_spec e (1024 - 53)); [reflexivity | lia].
Qed.

(** A mantissa of at most 53 bits, in the exponent range of the normal
    numbers, is rounded to itself. *)
Lemma binary_round_exact (s : bool) (p : positive) (q : Z) :
  Z.pos (digits2_pos p) <= 53 ->
  -1074 <= Z.pos (digits2_pos p) + q - 53 <= 971 ->
  exact_float (binary_round 53 1024 s p q) s (Z.pos p) q.
Proof.
  intros Hd Hq. unfold exact_float, binary_round, shl_align.
  assert (Hf : fexp 53 1024 (Z.pos (digits2_pos p) + q)
               = Z.pos (digits2_pos p) + q - 53).
  { unfold fexp, emin. lia. }
  rewrite Hf.
  destruct (Z.pos (digits2_pos p) + q - 53 - q) as [|k|k] eqn:Ek; try lia.
  - rewrite binary_round_aux_canonical by (rewrite ?Hf; lia).
    exists p, q. split; [reflexivity|]. split.
    + unfold valid_binary, bounded, canonical_mantissa. rewrite Hf.
      apply andb_true_intro. split; [apply Z.eqb_eq | apply Z.leb_le]; lia.
    + rewrite Z.sub_diag. cbn. lia.
  - assert (Hdk : Z.pos (digits2_pos (Pos.iter xO p k)) = 53).
    { rewrite digits2_pos_iter_xO, Pos2Z.inj_add. lia. }
    assert (Hfk : fexp 53 1024 (Z.pos (digits2_pos (Pos.iter xO p k))
                                + (Z.pos (digits2_pos p) + q - 53))
                  = Z.pos (digits2_pos p) + q - 53).
    { rewrite Hdk. unfold fexp, emin. lia. }
    rewrite binary_round_aux_canonical by (rewrite ?Hfk; lia).
    eexists; eexists. split; [reflexivity|]. split; [|split].
    + unfold valid_binary, bounded, canonical_mantissa. rewrite Hfk.
      apply andb_true_intro. split; [apply Z.eqb_eq | apply Z.leb_le]; lia.
    + lia.
    + rewrite iter_xO_value. f_equal. f_equal. lia.
Qed.

Lemma digits2_pos_le (p : positive) (n : Z) :
  0 <= n -> Z.pos p < 2 ^ n -> Z.pos (digits2_pos p) <= n.
Proof.
  intros Hn Hp. pose proof (digits2_pos_bounds p) as Hd.
  destruct (Z.le_gt_cases (Z.pos (digits2_pos p)) n) as [|Hgt]; [assumption|].
  assert (2 ^ n <= 2 ^ (Z.pos (digits2_pos p) - 1))
    by (apply Z.pow_le_mono_r; lia).
  lia.
Qed.

(** The float of a binary32 pattern is the value IEEE 754 gives it. *)
Lemma of_bits32_value (u : Z) : binary32_value u (PyFloat.of_bits32 u).
Proof.
  unfold binary32_value, PyFloat.of_bits32, PyFloat.prec, PyFloat.emax.
  assert (Hs : Z.testbit u 31 = binary32_sign u).
  { unfold binary32_sign. rewrite Z.testbit_odd, Z.shiftr_div_pow2 by lia.
    reflexivity. }
  assert (He : Z.land (Z.shiftr u 23) 255 = binary32_exponent u).
  { unfold binary32_exponent. change 255 with (Z.ones 8).
    rewrite Z.land_ones, Z.shiftr_div_pow2 by lia. reflexivity. }
  assert (Hm : Z.land u (2 ^ 23 - 1) = binary32_fraction u).
  { unfold binary32_fraction. change (2 ^ 23 - 1) with (Z.ones 23).
    rewrite Z.land_ones by lia. reflexivity. }
  rewrite Hs, He, Hm. cbv zeta.
  assert (HE : 0 <= binary32_exponent u < 2 ^ 8)
    by (apply Z.mod_pos_bound; lia).
  assert (HF : 0 <= binary32_fraction u < 2 ^ 23)
    by (apply Z.mod_pos_bound; lia).
  set (s := binary32_sign u). set (E := binary32_exponent u) in *.
  set (F := binary32_fraction u) in *.
  destruct (Z.eqb_spec E 255) as [|H255]; [reflexivity|].
  destruct (Z.eqb_spec E 0) as [H0|H0].
  - destruct (Z.eqb_spec F 0) as [->|HF0]; [destruct s; reflexivity|].
    destruct F as [|p|p]; try lia.
    assert (Hd : Z.pos (digits2_pos p) <= 23) by (apply digits2_pos_le; lia).
    pose proof (Pos2Z.is_pos (digits2_pos p)).
    destruct s; cbn [cond_Zopp Z.opp binary_normalize];
      apply binary_round_exact; lia.
  - change (2 ^ 8) with 256 in HE. change (2 ^ 23) with 8388608 in *.
    replace (F + 8388608) with (8388608 + F) by lia.
    destruct (8388608 + F) as [|p|p] eqn:EM; try lia.
    assert (Hd : Z.pos (digits2_pos p) <= 24)
      by (apply digits2_pos_le; [lia | change (2 ^ 24) with 16777216; lia]).
    pose proof (Pos2Z.is_pos (digits2_pos p)).
    destruct s; cbn [cond_Zopp Z.opp binary_normalize];
      apply binary_round_exact; lia.
Qed.

(** A positive int below 2^53 converts to the float of its own value. *)
Lemma of_int_exact (n : Z) :
  0 < n < 2 ^ 53 ->
  exact_float (binary_normalize 53 1024 n 0 false) false n 0.
Proof.
  intros Hn. destruct n as [|p|p]; try lia.
  assert (Hd : Z.pos (digits2_pos p) <= 53) by (apply digits2_pos_le; lia).
  pose proof (Pos2Z.is_pos (digits2_pos p)).
  cbn [binary_normalize]. apply binary_round_exact; lia.
Qed.

(** A positive int below 2^53 converts to a finite, positive float. *)
Lemma of_int_small (n : Z) :
  0 < n < 2 ^ 53 ->
  exists m e, PyFloat.of_int n = inr (S754_finite false m e).
Proof.
  intros Hn. destruct (of_int_exact n Hn) as (m & e & Hx & _).
  exists m, e. unfold PyFloat.of_int, PyFloat.prec, PyFloat.emax.
  rewrite Hx. reflexivity.
Qed.

(** ** Header decoding *)

(** The two messages every run on a complete header starts with. *)
Lemma outcome_header_log (file : list byte) (d : float) :
  (1024 <= length file)%nat ->
  firstn 2 (stdout (snd (outcome file d)))
  = [Channels (field_channel_count file);
     HeaderParams (field_samples_per_trace file) (field_bits_per_sample file)
       (field_scans_per_meter file)].
Proof.
  intros Hlen. unfold outcome.
  destruct (Nat.ltb_spec (length file) 1024) as [|_]; [lia|].
  destruct (invalid_header file); [reflexivity|].
  destruct (_ <=? 0); [reflexivity|].
  unfold read_outcome. cbv zeta.
  destruct (Np.reshape_F _ _); [reflexivity|].
  destruct (PyFloat.int_truediv _ _); reflexivity.
Qed.

Lemma fields_agree (file file' : list byte) :
  (forall i, In i field_offsets -> nth i file' x00 = nth i file x00) ->
  field_channel_count file' = field_channel_count file
  /\ field_samples_per_trace file' = field_samples_per_trace file
  /\ field_bits_per_sample file' = field_bits_per_sample file
  /\ field_scans_per_meter file' = field_scans_per_meter file.
Proof.
  intros H.
  unfold field_channel_count, field_samples_per_trace, field_bits_per_sample,
    field_scans_per_meter, byte_at.
  rewrite !H by (unfold field_offsets; simpl; tauto).
  repeat split.
Qed.

(** The run is a function of the length of the file, of the ten bytes of
    the four fields and of the data region. *)
Lemma outcome_fields_agree (file file' : list byte) (d : float) :
  length file' = length file ->
  (forall i, In i field_offsets -> nth i file' x00 = nth i file x00) ->
  skipn 1024 file' = skipn 1024 file ->
  outcome file' d = outcome file d.
Proof.
  intros Hl Hagree Hdata.
  destruct (fields_agree file file' Hagree) as (Hc & Hs & Hb & Hspm).
  unfold outcome, invalid_header, read_outcome, bytes_per_trace,
    data_region_size.
  rewrite Hl, Hc, Hs, Hb, Hspm, Hdata. reflexivity.
Qed.

(** C1: on every file with a complete 1024-byte header the decoder reads
    samples_per_trace as the little-endian signed 16-bit integer at offset
    4, bits_per_sample as the one at offset 6, scans_per_meter as the
    little-endian binary32 float at offset 40 and the channel count as the
    big-endian signed 16-bit integer at offset 51; these are the values it
    reports and, on success, returns, and two headers that agree on the
    ten bytes of these fields decode to the same values. The float is the
    value IEEE 754 gives the four bytes at offset 40 read as a
    little-endian binary32 pattern. No other offset of the header is
    interpreted: two files of the same length that agree on the ten bytes
    of the fields and on the data region give the same run, return value,
    messages and file accesses alike. *)
Theorem header_fields_at_fixed_offsets (file : list byte) (d : float) :
  (1024 <= length file)%nat ->
  firstn 2 (stdout (snd (decode file d)))
  = [Channels (field_channel_count file);
     HeaderParams (field_samples_per_trace file) (field_bits_per_sample file)
       (field_scans_per_meter file)]
  /\ (forall m hi w,
        decode file d = (Some m, Some hi, w) ->
        samples_per_trace hi = field_samples_per_trace file
        /\ bits_per_sample hi = field_bits_per_sample file)
  /\ (forall file',
        (1024 <= length file')%nat ->
        (forall i, In i field_offsets -> nth i file' x00 = nth i file x00) ->
        firstn 2 (stdout (snd (decode file' d)))
        = firstn 2 (stdout (snd (decode file d))))
  /\ binary32_value
       (byte_at file 40 + 256 * byte_at file 41
        + 65536 * byte_at file 42 + 16777216 * byte_at file 43)
       (field_scans_per_meter file)
  /\ (forall file',
        length file' = length file ->
        (forall i, In i field_offsets -> nth i file' x00 = nth i file x00) ->
        skipn 1024 file' = skipn 1024 file ->
        decode file' d = decode file d).
Proof.
  intros Hlen. split; [|split; [|split; [|split]]].
  - rewrite decode_outcome. apply outcome_header_log; assumption.
  - intros m hi w H. apply decode_success_inv in H.
    split; [apply (sf_hi_samples _ _ _ _ _ H) | apply (sf_hi_bits _ _ _ _ _ H)].
  - intros file' Hlen' Hagree.
    rewrite !decode_outcome, !outcome_header_log by assumption.
    destruct (fields_agree file file' Hagree) as (-> & -> & -> & ->).
    reflexivity.
  - apply of_bits32_value.
  - intros file' Hl Hagree Hdata.
    rewrite !decode_outcome. apply outcome_fields_agree; assumption.
Qed.

Lemma header_fields_at_fixed_offsets_witness :
  firstn 2 (stdout (snd (decode example_file float_200)))
  = [Channels 1; HeaderParams 4 16 (PyFloat.of_bits32 bits_100)]
  /\ exact_float (field_scans_per_meter example_file) false 13107200 (-17).
Proof.
  assert (Hlen : (1024 <= length example_file)%nat)
    by (apply Nat.leb_le; vm_compute; reflexivity).
  destruct (header_fields_at_fixed_offsets example_file float_200 Hlen)
    as (Hlog & _ & _ & Hval & _).
  split.
  - rewrite Hlog. vm_compute. reflexivity.
  - exact Hval.
Defined.


(** ** The matrix *)

Lemma firstn_map_nth_error {A} (n : nat) (l : list A) :
  (n <= length l)%nat -> map Some (firstn n l) = map (nth_error l) (seq 0 n).
Proof.
  revert l; induction n as [|n IH]; intros l H; [reflexivity|].
  destruct l as [|x l]; [simpl in H; lia|].
  cbn [firstn map seq nth_error]. f_equal.
  rewrite <- seq_shift, map_map. cbn [nth_error].
  apply IH. simpl in H. lia.
Qed.

(** The flat index of element [(s, t)] lies inside the buffer. *)
Lemma flat_index_bound (S T s t : Z) :
  0 <= s < S -> 0 <= t < T -> 0 <= t * S + s /\ t * S + s + 1 <= T * S.
Proof. intros Hs Ht. nia. Qed.

Section Matrix.

Variables (file : list byte) (d : float).
Variables (m : Np.ndarray) (hi : header_info) (w : world).
Hypothesis Hrun : decode file d = (Some m, Some hi, w).

Let facts : success_facts file d m hi w := decode_success_inv _ _ _ _ _ Hrun.

Lemma success_width_pos : (0 < Z.to_nat (bits_per_sample hi / 8))%nat.
Proof.
  rewrite (sf_hi_bits _ _ _ _ _ facts).
  destruct (sf_bits _ _ _ _ _ facts) as [-> | ->]; vm_compute; lia.
Qed.

Lemma success_bytes_per_trace :
  bytes_per_trace file
  = samples_per_trace hi * Z.of_nat (Z.to_nat (bits_per_sample hi / 8)).
Proof.
  rewrite (sf_hi_bits _ _ _ _ _ facts), (sf_hi_samples _ _ _ _ _ facts).
  unfold bytes_per_trace.
  destruct (sf_bits _ _ _ _ _ facts) as [-> | ->]; reflexivity.
Qed.

Lemma success_getitem (s t : nat) :
  Z.of_nat s < samples_per_trace hi -> Z.of_nat t < trace_count hi ->
  Np.getitem m s t
  = nth_error (Np.buffer m) (t * Z.to_nat (samples_per_trace hi) + s)
  /\ Np.getitem m s t
     = Some (stream_sample (Z.to_nat (bits_per_sample hi / 8)) file
               (t * Z.to_nat (samples_per_trace hi) + s)).
Proof.
  intros Hs Ht.
  pose proof (sf_header _ _ _ _ _ facts) as Hlen.
  pose proof (sf_fits _ _ _ _ _ facts) as Hfit.
  pose proof success_bytes_per_trace as HB.
  pose proof success_width_pos as Hw.
  pose proof (sf_hi_samples _ _ _ _ _ facts) as HS.
  pose proof (sf_hi_traces _ _ _ _ _ facts) as HT.
  pose proof (sf_hi_bits _ _ _ _ _ facts) as Hb.
  assert (Hget :
    Np.getitem m s t
    = nth_error (Np.buffer m) (t * Z.to_nat (samples_per_trace hi) + s)).
  { unfold Np.getitem.
    rewrite (sf_shape _ _ _ _ _ facts), (sf_strides _ _ _ _ _ facts).
    cbn [fst snd]. rewrite <- HS, <- HT.
    destruct (Nat.ltb_spec s (Z.to_nat (samples_per_trace hi))); [|lia].
    destruct (Nat.ltb_spec t (Z.to_nat (trace_count hi))); [|lia].
    cbn [andb]. f_equal. lia. }
  split; [exact Hget|].
  rewrite Hget, (sf_buffer _ _ _ _ _ facts), <- HS, <- HT, <- Hb.
  destruct (flat_index_bound (samples_per_trace hi) (trace_count hi)
              (Z.of_nat s) (Z.of_nat t)) as [_ Hidx]; [lia | lia |].
  rewrite <- HT in Hfit. rewrite HB in Hfit. unfold data_region_size in Hfit.
  set (wd := Z.to_nat (bits_per_sample hi / 8)) in *.
  apply read_items_stream_sample; nia.
Qed.

Lemma success_column (t : nat) :
  Z.of_nat t < trace_count hi ->
  Np.column m t
  = map Some (firstn (Z.to_nat (samples_per_trace hi))
                (skipn (t * Z.to_nat (samples_per_trace hi)) (Np.buffer m))).
Proof.
  intros Ht. unfold Np.column.
  pose proof (sf_hi_samples _ _ _ _ _ facts) as HS.
  pose proof (sf_hi_traces _ _ _ _ _ facts) as HT.
  pose proof (sf_samples _ _ _ _ _ facts) as HSpos.
  rewrite (sf_shape _ _ _ _ _ facts). cbn [fst]. rewrite <- HS.
  rewrite firstn_map_nth_error.
  - apply map_ext_in. intros s Hin. apply in_seq in Hin.
    rewrite nth_error_skipn.
    apply (proj1 (success_getitem s t ltac:(lia) Ht)).
  - rewrite length_skipn, (sf_size _ _ _ _ _ facts), <- HS, <- HT.
    destruct (flat_index_bound (samples_per_trace hi) (trace_count hi)
                0 (Z.of_nat t)) as [_ Hidx]; [lia | lia |].
    nia.
Qed.

End Matrix.

(** C2: on every successful decode the matrix has shape
    [samples_per_trace, trace_count] and its element (s, t) is the flat
    sample at index t * samples_per_trace + s, which is sample number
    t * samples_per_trace + s of the little-endian stream behind the
    header; column t is the t-th run of samples_per_trace flat samples. *)
Theorem matrix_is_column_major (file : list byte) (d : float)
    (m : Np.ndarray) (hi : header_info) (w : world) :
  decode file d = (Some m, Some hi, w) ->
  (Z.of_nat (fst (Np.shape m)) = samples_per_trace hi
   /\ Z.of_nat (snd (Np.shape m)) = trace_count hi)
  /\ (forall s t : nat,
        Z.of_nat s < samples_per_trace hi -> Z.of_nat t < trace_count hi ->
        Np.getitem m s t
        = nth_error (Np.buffer m) (t * Z.to_nat (samples_per_trace hi) + s)
        /\ Np.getitem m s t
           = Some (stream_sample (Z.to_nat (bits_per_sample hi / 8)) file
                     (t * Z.to_nat (samples_per_trace hi) + s)))
  /\ (forall t : nat,
        Z.of_nat t < trace_count hi ->
        Np.column m t
        = map Some (firstn (Z.to_nat (samples_per_trace hi))
                      (skipn (t * Z.to_nat (samples_per_trace hi))
                         (Np.buffer m)))).
Proof.
  intros Hrun. pose proof (decode_success_inv _ _ _ _ _ Hrun) as F.
  split; [|split].
  - rewrite (sf_shape _ _ _ _ _ F), (sf_hi_samples _ _ _ _ _ F),
      (sf_hi_traces _ _ _ _ _ F). cbn [fst snd].
    pose proof (sf_samples _ _ _ _ _ F). pose proof (sf_traces _ _ _ _ _ F).
    lia.
  - intros s t. apply (success_getitem file d m hi w Hrun).
  - intros t. apply (success_column file d m hi w Hrun).
Qed.


(** ** Trace count and trailing bytes *)

Lemma read_items_prefix (w n : nat) (bs bs' : list byte) :
  firstn (n * w) bs = firstn (n * w) bs' ->
  (n * w <= length bs)%nat -> (n * w <= length bs')%nat ->
  Np.read_items w n bs = Np.read_items w n bs'.
Proof.
  revert bs bs'; induction n as [|n IH]; intros bs bs' Heq Hl Hl';
    [reflexivity|].
  cbn [Np.read_items].
  assert (Hitem : firstn w bs = firstn w bs').
  { apply (f_equal (firstn w)) in Heq. rewrite !firstn_firstn in Heq.
    replace (Nat.min w (S n * w)) with w in Heq by lia. exact Heq. }
  assert (Hrest : firstn (n * w) (skipn w bs) = firstn (n * w) (skipn w bs')).
  { rewrite !firstn_skipn_comm.
    replace (w + n * w)%nat with (S n * w)%nat by lia.
    rewrite Heq. reflexivity. }
  rewrite Hitem, (IH _ _ Hrest); [reflexivity | |];
    rewrite length_skipn; lia.
Qed.

Lemma firstn_agree_nth {A} (k i : nat) (l l' : list A) (d : A) :
  firstn k l' = firstn k l -> (i < k)%nat -> nth i l' d = nth i l d.
Proof.
  intros Heq Hi.
  pose proof (nth_firstn k l i d) as H. pose proof (nth_firstn k l' i d) as H'.
  destruct (Nat.ltb_spec i k); [|lia].
  rewrite <- H, <- H', Heq. reflexivity.
Qed.

(** With 16-bit or 32-bit samples the outcome depends on the length of
    the file and on its bytes up to the end of the last complete trace. *)
Lemma outcome_agree (file file' : list byte) (d : float) :
  (1024 <= length file)%nat ->
  length file' = length file ->
  field_bits_per_sample file = 16 \/ field_bits_per_sample file = 32 ->
  0 < field_samples_per_trace file ->
  0 < data_region_size file / bytes_per_trace file ->
  firstn (Z.to_nat (1024 + data_region_size file / bytes_per_trace file
                           * bytes_per_trace file)) file'
  = firstn (Z.to_nat (1024 + data_region_size file / bytes_per_trace file
                             * bytes_per_trace file)) file ->
  outcome file' d = outcome file d.
Proof.
  intros Hlen Hl Hbits HS HT Hpre.
  assert (HBpos : 0 < bytes_per_trace file).
  { unfold bytes_per_trace. destruct Hbits as [-> | ->];
      [change (16 / 8) with 2 | change (32 / 8) with 4]; lia. }
  pose proof (Z.mul_div_le (data_region_size file) (bytes_per_trace file) HBpos)
    as Hfit.
  assert (Hagree :
    forall i, In i field_offsets -> nth i file' x00 = nth i file x00).
  { intros i Hi. apply (firstn_agree_nth _ i _ _ x00 Hpre).
    assert (i < 1024)%nat;
      [unfold field_offsets in Hi; simpl in Hi; lia | nia]. }
  destruct (fields_agree file file' Hagree) as (Hc & Hs & Hb & Hspm).
  assert (HB : bytes_per_trace file' = bytes_per_trace file).
  { unfold bytes_per_trace. rewrite Hs, Hb. reflexivity. }
  assert (HN : data_region_size file' = data_region_size file).
  { unfold data_region_size. rewrite Hl. reflexivity. }
  unfold outcome, invalid_header, read_outcome.
  rewrite Hl, Hc, Hs, Hb, Hspm, HB, HN. cbv zeta.
  set (T := data_region_size file / bytes_per_trace file) in *.
  set (wd := Np.itemsize (if field_bits_per_sample file =? 16
                          then Np.i2_le else Np.i4_le)).
  assert (Hwd : bytes_per_trace file = field_samples_per_trace file * Z.of_nat wd).
  { unfold bytes_per_trace, wd. destruct Hbits as [-> | ->]; reflexivity. }
  assert (Hcount :
    (Z.to_nat (T * field_samples_per_trace file) * wd)%nat
    = Z.to_nat (T * bytes_per_trace file)).
  { rewrite Hwd. nia. }
  assert (Hraw :
    Np.read_items wd (Z.to_nat (T * field_samples_per_trace file))
      (skipn 1024 file')
    = Np.read_items wd (Z.to_nat (T * field_samples_per_trace file))
        (skipn 1024 file)).
  { unfold data_region_size in Hfit.
    apply read_items_prefix.
    - rewrite Hcount, !firstn_skipn_comm.
      replace (1024 + Z.to_nat (T * bytes_per_trace file))%nat
        with (Z.to_nat (1024 + T * bytes_per_trace file)) by nia.
      rewrite Hpre. reflexivity.
    - rewrite Hcount, length_skipn. nia.
    - rewrite Hcount, length_skipn. nia. }
  rewrite Hraw. reflexivity.
Qed.

(** C3: on every successful decode trace_count is the floor of the size
    of the data region over the bytes of one trace; the reads of the
    decoder end with the last complete trace, and changing the trailing
    bytes behind it changes nothing of the run. *)
Theorem trace_count_floor_and_trailing_bytes (file : list byte) (d : float)
    (m : Np.ndarray) (hi : header_info) (w : world) :
  decode file d = (Some m, Some hi, w) ->
  let B := samples_per_trace hi * (bits_per_sample hi / 8) in
  let N := data_region_size file in
  trace_count hi = N / B
  /\ N = trace_count hi * B + N mod B
  /\ (forall pos len,
        In (IoRead pos len) (io w) ->
        Z.of_nat (pos + len) <= 1024 + trace_count hi * B)
  /\ (forall file',
        length file' = length file ->
        firstn (Z.to_nat (1024 + trace_count hi * B)) file'
        = firstn (Z.to_nat (1024 + trace_count hi * B)) file ->
        decode file' d = decode file d).
Proof.
  intros Hrun B N. pose proof (decode_success_inv _ _ _ _ _ Hrun) as F.
  pose proof (sf_hi_samples _ _ _ _ _ F) as HS.
  pose proof (sf_hi_bits _ _ _ _ _ F) as Hb.
  pose proof (sf_hi_traces _ _ _ _ _ F) as HT.
  assert (HB : B = bytes_per_trace file).
  { unfold B, bytes_per_trace. rewrite HS, Hb. reflexivity. }
  assert (HBpos : 0 < B).
  { rewrite HB. unfold bytes_per_trace.
    pose proof (sf_samples _ _ _ _ _ F).
    destruct (sf_bits _ _ _ _ _ F) as [-> | ->];
      [change (16 / 8) with 2 | change (32 / 8) with 4]; lia. }
  split; [|split; [|split]].
  - rewrite HT, HB. reflexivity.
  - rewrite HT, HB. unfold N.
    pose proof (Z.div_mod (data_region_size file) (bytes_per_trace file)).
    lia.
  - intros pos len Hin. rewrite (sf_world _ _ _ _ _ F) in Hin.
    cbn [io] in Hin. rewrite (sf_size _ _ _ _ _ F) in Hin.
    rewrite HT, HB.
    pose proof (sf_traces _ _ _ _ _ F) as HTpos.
    pose proof (sf_samples _ _ _ _ _ F) as HSpos.
    assert (Hw : Z.of_nat (Z.to_nat (field_bits_per_sample file / 8))
                 * field_samples_per_trace file = bytes_per_trace file).
    { unfold bytes_per_trace.
      destruct (sf_bits _ _ _ _ _ F) as [-> | ->];
        [change (16 / 8) with 2 | change (32 / 8) with 4]; lia. }
    set (wd := Z.to_nat (field_bits_per_sample file / 8)) in *.
    simpl in Hin.
    destruct Hin as [H|[H|[H|[H|[]]]]]; try discriminate H;
      injection H as <- <-; nia.
  - intros file' Hl Hpre.
    rewrite !decode_outcome.
    rewrite HT, HB in Hpre.
    apply outcome_agree; try assumption.
    + apply (sf_header _ _ _ _ _ F).
    + apply (sf_bits _ _ _ _ _ F).
    + apply (sf_samples _ _ _ _ _ F).
    + apply (sf_traces _ _ _ _ _ F).
Qed.


(** ** Validation and the empty-data guard *)

Lemma invalid_header_iff (file : list byte) :
  invalid_header file = true
  <-> field_samples_per_trace file <= 0
      \/ ~ valid_width (field_bits_per_sample file).
Proof.
  unfold invalid_header, valid_width. cbn [existsb].
  rewrite orb_true_iff, negb_true_iff, Z.leb_le, !orb_false_iff,
    !Z.eqb_neq.
  intuition lia.
Qed.

Lemma outcome_invalid (file : list byte) (d : float) :
  (1024 <= length file)%nat -> invalid_header file = true ->
  outcome file d
  = ((None, None),
     {| cursor := 1024;
        stdout := [Channels (field_channel_count file);
                   HeaderParams (field_samples_per_trace file)
                     (field_bits_per_sample file) (field_scans_per_meter file);
                   InvalidHeader];
        io := [IoRead 0 1024] |}).
Proof.
  intros Hlen Hinv. unfold outcome.
  destruct (Nat.ltb_spec (length file) 1024) as [|_]; [lia|].
  rewrite Hinv. reflexivity.
Qed.

Lemma outcome_no_trace (file : list byte) (d : float) :
  (1024 <= length file)%nat -> invalid_header file = false ->
  data_region_size file / bytes_per_trace file <= 0 ->
  outcome file d
  = ((None, None),
     {| cursor := length file;
        stdout := [Channels (field_channel_count file);
                   HeaderParams (field_samples_per_trace file)
                     (field_bits_per_sample file) (field_scans_per_meter file);
                   ZeroTraceCount];
        io := [IoRead 0 1024; IoSeek (length file)] |}).
Proof.
  intros Hlen Hinv HT. unfold outcome.
  destruct (Nat.ltb_spec (length file) 1024) as [|_]; [lia|].
  rewrite Hinv.
  destruct (Z.leb_spec (data_region_size file / bytes_per_trace file) 0);
    [reflexivity | lia].
Qed.

Lemma header_prefix_agree (file data' : list byte) :
  (1024 <= length file)%nat ->
  forall i, In i field_offsets ->
    nth i (firstn 1024 file ++ data') x00 = nth i file x00.
Proof.
  intros Hlen i Hi.
  assert (i < 1024)%nat by (unfold field_offsets in Hi; simpl in Hi; lia).
  rewrite app_nth1 by (rewrite firstn_length_le; lia).
  apply nth_header; assumption.
Qed.

(** C4: when the header decodes to samples_per_trace <= 0 or to a
    bits_per_sample outside 8, 16, 32, the decoder reports invalid header
    parameters and returns (None, None); its only access to the file is
    the read of the 1024 header bytes, and the run is the same whatever
    the data region holds. *)
Theorem invalid_header_gates_data_read (file : list byte) (d : float) :
  (1024 <= length file)%nat ->
  field_samples_per_trace file <= 0
  \/ ~ valid_width (field_bits_per_sample file) ->
  fst (decode file d) = (None, None)
  /\ last (stdout (snd (decode file d))) DataReadOk = InvalidHeader
  /\ io (snd (decode file d)) = [IoRead 0 1024]
  /\ cursor (snd (decode file d)) = 1024%nat
  /\ (forall data', decode (firstn 1024 file ++ data') d = decode file d).
Proof.
  intros Hlen Hbad. apply invalid_header_iff in Hbad.
  rewrite decode_outcome, (outcome_invalid file d Hlen Hbad).
  repeat split.
  intros data'. rewrite decode_outcome.
  destruct (fields_agree file _ (header_prefix_agree file data' Hlen))
    as (Hc & Hs & Hb & Hspm).
  rewrite outcome_invalid.
  - rewrite Hc, Hs, Hb, Hspm. reflexivity.
  - rewrite length_app, firstn_length_le; lia.
  - unfold invalid_header in *. rewrite Hs, Hb. exact Hbad.
Qed.

Lemma invalid_header_gates_data_read_witness :
  fst (decode bad_width_file float_200) = (None, None)
  /\ io (snd (decode bad_width_file float_200)) = [IoRead 0 1024].
Proof.
  assert (Hlen : (1024 <= length bad_width_file)%nat)
    by (apply Nat.leb_le; vm_compute; reflexivity).
  assert (Hbad : field_samples_per_trace bad_width_file <= 0
                 \/ ~ valid_width (field_bits_per_sample bad_width_file)).
  { right. vm_compute. intros [H|[H|H]]; discriminate H. }
  destruct (invalid_header_gates_data_read bad_width_file float_200 Hlen Hbad)
    as (Hr & _ & Hio & _).
  split; assumption.
Defined.

(** C7: a valid header whose data region is shorter than one trace makes
    the decoder report a zero trace count and return (None, None) before
    any sample is read; and a matrix that is returned has at least one
    column. *)
Theorem empty_recording_guard (file : list byte) (d : float) :
  ((1024 <= length file)%nat ->
   0 < field_samples_per_trace file ->
   valid_width (field_bits_per_sample file) ->
   data_region_size file < bytes_per_trace file ->
   fst (decode file d) = (None, None)
   /\ last (stdout (snd (decode file d))) DataReadOk = ZeroTraceCount
   /\ io (snd (decode file d)) = [IoRead 0 1024; IoSeek (length file)])
  /\ (forall m hi w,
        decode file d = (Some m, Some hi, w) ->
        1 <= trace_count hi /\ (1 <= snd (Np.shape m))%nat).
Proof.
  split.
  - intros Hlen HS Hv Hshort.
    assert (Hinv : invalid_header file = false).
    { destruct (invalid_header file) eqn:E; [|reflexivity].
      apply invalid_header_iff in E. destruct E; [lia | contradiction]. }
    destruct (valid_header_bytes_per_trace file Hinv) as (_ & _ & HB).
    assert (HT : data_region_size file / bytes_per_trace file <= 0).
    { unfold data_region_size in *.
      rewrite Z.div_small by lia. lia. }
    rewrite decode_outcome, (outcome_no_trace file d Hlen Hinv HT).
    repeat split.
  - intros m hi w Hrun. pose proof (decode_success_inv _ _ _ _ _ Hrun) as F.
    rewrite (sf_hi_traces _ _ _ _ _ F), (sf_shape _ _ _ _ _ F). cbn [snd].
    pose proof (sf_traces _ _ _ _ _ F). lia.
Qed.

Lemma empty_recording_guard_witness :
  fst (decode short_data_file float_200) = (None, None)
  /\ last (stdout (snd (decode short_data_file float_200))) DataReadOk
     = ZeroTraceCount.
Proof.
  assert (Hlen : (1024 <= length short_data_file)%nat)
    by (apply Nat.leb_le; vm_compute; reflexivity).
  assert (HS : 0 < field_samples_per_trace short_data_file)
    by (vm_compute; reflexivity).
  assert (Hv : valid_width (field_bits_per_sample short_data_file))
    by (right; left; vm_compute; reflexivity).
  assert (Hshort : data_region_size short_data_file
                   < bytes_per_trace short_data_file)
    by (vm_compute; reflexivity).
  destruct (proj1 (empty_recording_guard short_data_file float_200)
              Hlen HS Hv Hshort) as (Hr & Hlog & _).
  split; assumption.
Defined.


(** ** Density fallback and line length *)

Lemma le_zero_nonpositive (x : float) :
  PyFloat.le_zero x = true <-> density_nonpositive x.
Proof.
  destruct x as [s|[|]| |[|] m e]; cbn; intuition discriminate.
Qed.

Lemma gt_zero_positive (x : float) :
  PyFloat.gt_zero x = true <-> density_positive x.
Proof.
  destruct x as [s|[|]| |[|] m e]; cbn; intuition discriminate.
Qed.

Lemma positive_not_le_zero (x : float) :
  density_positive x -> PyFloat.le_zero x = false.
Proof.
  destruct x as [s|[|]| |[|] m e]; cbn; intuition discriminate.
Qed.

(** C6: on every successful decode, a header density that is zero or
    negative is replaced by the caller's default and the replacement is
    announced on the log; a positive header density is returned as it is,
    and no replacement is announced. *)
Theorem scans_per_meter_fallback (file : list byte) (d : float)
    (m : Np.ndarray) (hi : header_info) (w : world) :
  decode file d = (Some m, Some hi, w) ->
  (density_nonpositive (field_scans_per_meter file) ->
   PyFloat.le_zero (field_scans_per_meter file) = true
   /\ scans_per_meter hi = d
   /\ In (SpmFallback d) (stdout w))
  /\ (density_positive (field_scans_per_meter file) ->
      PyFloat.gt_zero (field_scans_per_meter file) = true
      /\ scans_per_meter hi = field_scans_per_meter file
      /\ forall x, ~ In (SpmFallback x) (stdout w)).
Proof.
  intros Hrun. pose proof (decode_success_inv _ _ _ _ _ Hrun) as F.
  pose proof (sf_hi_spm _ _ _ _ _ F) as Hspm.
  pose proof (sf_world _ _ _ _ _ F) as Hw.
  split.
  - intros Hneg. apply le_zero_nonpositive in Hneg.
    rewrite Hneg in Hspm, Hw. subst w. cbn [stdout app].
    repeat split; try assumption. simpl. tauto.
  - intros Hpos. pose proof (positive_not_le_zero _ Hpos) as Hle.
    apply gt_zero_positive in Hpos.
    rewrite Hle in Hspm, Hw. subst w. cbn [stdout app].
    repeat split; try assumption.
    intros x [H|[H|[H|[H|[]]]]]; discriminate H.
Qed.

Lemma scans_per_meter_fallback_witness :
  scans_per_meter fallback_info = float_200
  /\ In (SpmFallback float_200) (stdout fallback_world).
Proof.
  assert (Hrun : decode zero_density_file float_200
                 = (Some example_matrix, Some fallback_info, fallback_world))
    by (vm_compute; reflexivity).
  assert (Hzero : density_nonpositive (field_scans_per_meter zero_density_file))
    by (vm_compute; exact I).
  destruct (proj1 (scans_per_meter_fallback zero_density_file float_200
                     example_matrix fallback_info fallback_world Hrun) Hzero)
    as (_ & Hspm & Hlog).
  split; assumption.
Defined.

(** C8: on every successful decode total_length_m is the float quotient
    of trace_count, converted to a float, by the scans_per_meter of the
    returned record, which is the density after the fallback; trace_count
    is the final trace count of the record, and the same two values are
    the ones the closing message reports. The quotient is the binary64
    division, rounded to nearest even, and the dividend is trace_count
    rounded to binary64: for a trace count below 2^53 it is the float
    whose value is exactly the trace count. *)
Theorem total_length_is_traces_over_density (file : list byte) (d : float)
    (m : Np.ndarray) (hi : header_info) (w : world) :
  decode file d = (Some m, Some hi, w) ->
  PyFloat.int_truediv (trace_count hi) (scans_per_meter hi)
  = inr (total_length_m hi)
  /\ (exists tf,
        PyFloat.of_int (trace_count hi) = inr tf
        /\ total_length_m hi
           = SFdiv PyFloat.prec PyFloat.emax tf (scans_per_meter hi))
  /\ trace_count hi = data_region_size file / bytes_per_trace file
  /\ scans_per_meter hi
     = (if PyFloat.le_zero (field_scans_per_meter file) then d
        else field_scans_per_meter file)
  /\ last (stdout w) DataReadOk
     = Summary (trace_count hi) (total_length_m hi)
  /\ total_length_m hi
     = SFdiv 53 1024 (binary_normalize 53 1024 (trace_count hi) 0 false)
         (scans_per_meter hi)
  /\ (trace_count hi < 2 ^ 53 ->
      exists tf,
        exact_float tf false (trace_count hi) 0
        /\ total_length_m hi = SFdiv 53 1024 tf (scans_per_meter hi)).
Proof.
  intros Hrun. pose proof (decode_success_inv _ _ _ _ _ Hrun) as F.
  pose proof (sf_hi_length _ _ _ _ _ F) as Hlen.
  assert (Hquot :
    total_length_m hi
    = SFdiv 53 1024 (binary_normalize 53 1024 (trace_count hi) 0 false)
        (scans_per_meter hi)).
  { unfold PyFloat.int_truediv, PyFloat.of_int, PyFloat.truediv,
      PyFloat.prec, PyFloat.emax in Hlen.
    destruct (binary_normalize 53 1024 (trace_count hi) 0 false);
      try discriminate Hlen;
      (destruct (scans_per_meter hi); [discriminate Hlen | | |];
       injection Hlen as <-; reflexivity). }
  split; [exact Hlen|]. split; [|split; [|split; [|split; [|split]]]].
  - unfold PyFloat.int_truediv, PyFloat.truediv in Hlen.
    destruct (PyFloat.of_int (trace_count hi)) as [e|tf]; [discriminate|].
    exists tf. split; [reflexivity|].
    destruct (scans_per_meter hi); [discriminate | | |];
      injection Hlen as <-; reflexivity.
  - apply (sf_hi_traces _ _ _ _ _ F).
  - apply (sf_hi_spm _ _ _ _ _ F).
  - rewrite (sf_world _ _ _ _ _ F). cbn [stdout].
    change (?a ++ ?b ++ [DataReadOk; ?c]) with (a ++ b ++ [DataReadOk] ++ [c]).
    rewrite !app_assoc. apply last_last.
  - exact Hquot.
  - intros Hsmall.
    exists (binary_normalize 53 1024 (trace_count hi) 0 false).
    split; [|exact Hquot].
    apply of_int_exact.
    rewrite (sf_hi_traces _ _ _ _ _ F) in *.
    pose proof (sf_traces _ _ _ _ _ F). lia.
Qed.

Lemma total_length_is_traces_over_density_witness :
  PyFloat.int_truediv 3 (PyFloat.of_bits32 bits_100)
  = inr (total_length_m example_info)
  /\ exists tf,
       exact_float tf false 3 0
       /\ total_length_m example_info
          = SFdiv 53 1024 tf (scans_per_meter example_info).
Proof.
  assert (Hrun : decode example_file float_200
                 = (Some example_matrix, Some example_info, example_world))
    by (vm_compute; reflexivity).
  destruct (total_length_is_traces_over_density example_file float_200
              example_matrix example_info example_world Hrun)
    as (Hdiv & _ & _ & _ & _ & _ & Hexact).
  split; [exact Hdiv|].
  apply Hexact. reflexivity.
Defined.


(** ** Failure paths *)

Lemma outcome_cases (file : list byte) (d : float) :
  failed (outcome file d) \/ succeeded (outcome file d).
Proof.
  unfold outcome.
  destruct (length file <? 1024)%nat; [left; split; reflexivity|].
  destruct (invalid_header file); [left; split; reflexivity|].
  destruct (_ <=? 0); [left; split; reflexivity|].
  unfold read_outcome. cbv zeta.
  destruct (Np.reshape_F _ _) as [e|m].
  { left. destruct (PyFloat.le_zero _); split; reflexivity. }
  destruct (PyFloat.int_truediv _ _) as [e|len].
  { left. destruct (PyFloat.le_zero _); split; reflexivity. }
  right. split; [eexists; eexists; reflexivity|].
  cbn [snd stdout].
  destruct (PyFloat.le_zero _); cbn [app]; intros msg Hin;
    repeat (destruct Hin as [<-|Hin]; [reflexivity|]); destruct Hin.
Qed.

Lemma run_cases (file_path : option (list byte)) (d : float) :
  failed (read_gssi_dzt_final file_path d initial)
  \/ succeeded (read_gssi_dzt_final file_path d initial).
Proof.
  destruct file_path as [file|].
  - change (read_gssi_dzt_final (Some file) d initial) with (decode file d).
    rewrite decode_outcome. apply outcome_cases.
  - left. split; reflexivity.
Qed.

(** C10: the decoder returns either (None, None) or a matrix together
    with a record, never one without the other; whenever a failure
    message is on the log -- header too short, invalid header parameters,
    zero trace count, or the critical error of a caught exception -- the
    return value is (None, None), and every (None, None) comes with such
    a message as the last line of the log. An unreadable file, a short
    header, an invalid header and a data region without a complete trace
    all end this way. *)
Theorem failures_return_none_none (file_path : option (list byte)) (d : float) :
  let run := read_gssi_dzt_final file_path d initial in
  (fst run = (None, None) \/ exists m hi, fst run = (Some m, Some hi))
  /\ (forall msg,
        In msg (stdout (snd run)) -> failure_message msg = true ->
        fst run = (None, None))
  /\ (fst run = (None, None) ->
      failure_message (last (stdout (snd run)) DataReadOk) = true)
  /\ (file_path = None ->
      fst run = (None, None)
      /\ stdout (snd run) = [CriticalError FileNotFoundError])
  /\ (forall file, file_path = Some file ->
        ((length file < 1024)%nat ->
         fst run = (None, None) /\ stdout (snd run) = [HeaderTooShort])
        /\ ((1024 <= length file)%nat ->
            field_samples_per_trace file <= 0
            \/ ~ valid_width (field_bits_per_sample file) ->
            fst run = (None, None)
            /\ last (stdout (snd run)) DataReadOk = InvalidHeader)
        /\ ((1024 <= length file)%nat ->
            invalid_header file = false ->
            data_region_size file / bytes_per_trace file <= 0 ->
            fst run = (None, None)
            /\ last (stdout (snd run)) DataReadOk = ZeroTraceCount)).
Proof.
  intros run. pose proof (run_cases file_path d) as Hcases. fold run in Hcases.
  split; [|split; [|split; [|split]]].
  - destruct Hcases as [[Hr _]|[Hr _]]; [left | right]; exact Hr.
  - intros msg Hin Hfail.
    destruct Hcases as [[Hr _]|[_ Hok]]; [exact Hr|].
    rewrite (Hok msg Hin) in Hfail. discriminate Hfail.
  - intros Hnone.
    destruct Hcases as [[_ Hlast]|[(m & hi & Hr) _]]; [exact Hlast|].
    rewrite Hr in Hnone. discriminate Hnone.
  - intros ->. split; reflexivity.
  - intros file ->.
    change run with (decode file d). rewrite decode_outcome.
    split; [|split].
    + intros Hlen. unfold outcome.
      destruct (Nat.ltb_spec (length file) 1024); [|lia].
      split; reflexivity.
    + intros Hlen Hbad. apply invalid_header_iff in Hbad.
      rewrite (outcome_invalid file d Hlen Hbad). split; reflexivity.
    + intros Hlen Hinv HT.
      rewrite (outcome_no_trace file d Hlen Hinv HT). split; reflexivity.
Qed.


(** ** Sample width *)

(** With 16-bit and 32-bit samples the element width of the read is
    bits_per_sample / 8. *)
Lemma success_element_width (file : list byte) (d : float)
    (m : Np.ndarray) (hi : header_info) (w : world) :
  decode file d = (Some m, Some hi, w) ->
  (bits_per_sample hi = 16 \/ bits_per_sample hi = 32)
  /\ In (IoRead 1024 (Z.to_nat (bits_per_sample hi / 8) * length (Np.buffer m)))
       (io w).
Proof.
  intros Hrun. pose proof (decode_success_inv _ _ _ _ _ Hrun) as F.
  rewrite (sf_hi_bits _ _ _ _ _ F), (sf_world _ _ _ _ _ F).
  split; [apply (sf_bits _ _ _ _ _ F) | simpl; tauto].
Qed.

(** With 8-bit samples the trace count is taken with one byte per sample
    and the read with four: the read asks for more bytes than the data
    region has and takes all of it, leaving the file at its end; the
    items never fill the matrix, and the run ends in the handler of the
    exception that [reshape] raises. *)
Lemma eight_bit_outcome (file : list byte) (d : float) :
  (1024 <= length file)%nat ->
  0 < field_samples_per_trace file ->
  field_bits_per_sample file = 8 ->
  field_samples_per_trace file <= data_region_size file ->
  decode file d
  = ((None, None),
     {| cursor := length file;
        stdout :=
          [Channels (field_channel_count file);
           HeaderParams (field_samples_per_trace file) 8
             (field_scans_per_meter file)]
          ++ (if PyFloat.le_zero (field_scans_per_meter file)
              then [SpmFallback d] else [])
          ++ [CriticalError ValueError];
        io := [IoRead 0 1024; IoSeek (length file); IoSeek 1024;
               IoRead 1024 (length file - 1024)] |}).
Proof.
  intros Hlen HS Hb HN.
  assert (Hinv : invalid_header file = false).
  { unfold invalid_header. rewrite Hb. cbn [existsb].
    destruct (Z.leb_spec (field_samples_per_trace file) 0); [lia|].
    reflexivity. }
  assert (HB : bytes_per_trace file = field_samples_per_trace file).
  { unfold bytes_per_trace. rewrite Hb. change (8 / 8) with 1. lia. }
  pose proof (Z.mul_succ_div_gt (data_region_size file)
                (field_samples_per_trace file) HS) as Hgt.
  assert (HT : 0 < data_region_size file / field_samples_per_trace file).
  { apply Z.div_str_pos. lia. }
  set (T := data_region_size file / field_samples_per_trace file) in *.
  set (raw := Np.read_items 4 (Z.to_nat (T * field_samples_per_trace file))
                (skipn 1024 file)).
  pose proof (read_items_fits 4 (Z.to_nat (T * field_samples_per_trace file))
                (skipn 1024 file)) as Hfit.
  fold raw in Hfit. rewrite length_skipn in Hfit.
  rewrite decode_outcome. unfold outcome.
  destruct (Nat.ltb_spec (length file) 1024) as [|_]; [lia|].
  rewrite Hinv, HB. fold T.
  destruct (Z.leb_spec T 0) as [|_]; [lia|].
  unfold read_outcome. rewrite HB, Hb. fold T. cbv zeta.
  change (Np.itemsize (if 8 =? 16 then Np.i2_le else Np.i4_le)) with 4%nat.
  fold raw.
  assert (Hre : Np.reshape_F raw (field_samples_per_trace file, T)
                = inl ValueError).
  { unfold Np.reshape_F.
    destruct (Z.eqb_spec (Z.of_nat (length raw))
                (field_samples_per_trace file * T)) as [E|_].
    - exfalso. unfold data_region_size in *. nia.
    - rewrite andb_false_r. reflexivity. }
  rewrite Hre.
  rewrite Nat.min_r by (unfold data_region_size in *; nia).
  replace (1024 + (length file - 1024))%nat with (length file) by lia.
  cbn [app]. reflexivity.
Qed.

(** C5 (the code departs from it): a header with 8 bits per sample passes
    validation and the trace count is taken with one byte per sample, but
    the samples are read four bytes wide. On this file of four one-byte
    samples the decoder reads the four bytes as one 32-bit sample, cannot
    reshape it into four traces, and returns (None, None) through the
    handler of the exception. *)
Theorem eight_bit_samples_read_four_bytes_wide :
  field_samples_per_trace eight_bit_file = 1
  /\ field_bits_per_sample eight_bit_file = 8
  /\ data_region_size eight_bit_file / bytes_per_trace eight_bit_file = 4
  /\ Np.read_items 4 4 (skipn 1024 eight_bit_file) = [0x04030201]
  /\ decode eight_bit_file float_200
     = ((None, None),
        {| cursor := 1028;
           stdout := [Channels 1;
                      HeaderParams 1 8 (PyFloat.of_bits32 bits_100);
                      CriticalError ValueError];
           io := [IoRead 0 1024; IoSeek 1028; IoSeek 1024;
                  IoRead 1024 4] |}).
Proof. repeat split; vm_compute; reflexivity. Qed.

(** ** The invariant of a returned record *)

Lemma density_cases (x : float) :
  density_nonpositive x \/ density_positive x \/ x = S754_nan.
Proof. destruct x as [s|[|]| |[|] m e]; cbn; auto. Qed.

(** What holds of every returned record and matrix; the density is
    positive when the default is and the header does not hold a NaN. *)
Lemma success_invariant (file : list byte) (d : float)
    (m : Np.ndarray) (hi : header_info) (w : world) :
  decode file d = (Some m, Some hi, w) ->
  0 < samples_per_trace hi
  /\ valid_width (bits_per_sample hi)
  /\ 1 <= trace_count hi
  /\ Np.shape m = (Z.to_nat (samples_per_trace hi), Z.to_nat (trace_count hi))
  /\ (density_positive d -> field_scans_per_meter file <> S754_nan ->
      density_positive (scans_per_meter hi)).
Proof.
  intros Hrun. pose proof (decode_success_inv _ _ _ _ _ Hrun) as F.
  rewrite (sf_hi_samples _ _ _ _ _ F), (sf_hi_bits _ _ _ _ _ F),
    (sf_hi_traces _ _ _ _ _ F), (sf_hi_spm _ _ _ _ _ F).
  pose proof (sf_traces _ _ _ _ _ F).
  split; [|split; [|split; [|split]]].
  - apply (sf_samples _ _ _ _ _ F).
  - unfold valid_width. destruct (sf_bits _ _ _ _ _ F); auto.
  - lia.
  - apply (sf_shape _ _ _ _ _ F).
  - intros Hd Hnan.
    destruct (density_cases (field_scans_per_meter file)) as [Hn|[Hp|Hx]].
    + apply le_zero_nonpositive in Hn. rewrite Hn. exact Hd.
    + rewrite (positive_not_le_zero _ Hp). exact Hp.
    + contradiction.
Qed.

(** C9 (the code departs from it): the test [scans_per_meter <= 0] is
    false on a NaN, so a header whose density field holds a NaN is decoded
    with success and the NaN is returned as scans_per_meter, and as
    total_length_m, although the default, 200.0, is positive. *)
Theorem nan_density_is_returned :
  density_positive float_200
  /\ PyFloat.le_zero (field_scans_per_meter nan_density_file) = false
  /\ exists m hi w,
       decode nan_density_file float_200 = (Some m, Some hi, w)
       /\ scans_per_meter hi = S754_nan
       /\ PyFloat.gt_zero (scans_per_meter hi) = false
       /\ total_length_m hi = S754_nan
       /\ trace_count hi = 3.
Proof.
  split; [vm_compute; exact I|]. split; [vm_compute; reflexivity|].
  eexists; eexists; eexists.
  split; [vm_compute; reflexivity|].
  repeat split.
Qed.


(** ** Synthetic headers and the example file *)

Lemma byte_val_of_Z (z : Z) : byte_val (byte_of_Z z) = z mod 256.
Proof.
  unfold byte_val, byte_of_Z.
  pose proof (Z.mod_pos_bound z 256 eq_refl) as Hr.
  destruct (Byte.of_N (Z.to_N (z mod 256))) as [b|] eqn:E.
  - apply Byte.to_of_N in E. rewrite E. lia.
  - apply Byte.of_N_None_iff in E. lia.
Qed.

Lemma int16_round_trip (v : Z) :
  -32768 <= v < 32768 ->
  int16 (v mod 256 + 256 * ((v / 256) mod 256)) = v.
Proof.
  intros Hv. unfold int16.
  pose proof (Z.div_mod v 256 ltac:(lia)).
  pose proof (Z.mod_pos_bound v 256 eq_refl).
  pose proof (Z.div_mod (v / 256) 256 ltac:(lia)).
  pose proof (Z.mod_pos_bound (v / 256) 256 eq_refl).
  destruct (Z.ltb_spec (v mod 256 + 256 * ((v / 256) mod 256)) 32768); lia.
Qed.

(** A header written with known values at offsets 4, 6, 40 and 51 is read
    back with exactly these values, whatever follows the header. *)
Lemma synthetic_header_round_trip (samples bits spm_bits channels : Z)
    (data : list byte) :
  -32768 <= samples < 32768 -> -32768 <= bits < 32768 ->
  -32768 <= channels < 32768 -> 0 <= spm_bits < 2 ^ 32 ->
  let file := synthetic_header samples bits spm_bits channels ++ data in
  field_samples_per_trace file = samples
  /\ field_bits_per_sample file = bits
  /\ field_channel_count file = channels
  /\ field_scans_per_meter file = PyFloat.of_bits32 spm_bits.
Proof.
  intros Hs Hb Hc Hf file.
  unfold field_samples_per_trace, field_bits_per_sample, field_channel_count,
    field_scans_per_meter, byte_at, file, synthetic_header.
  cbn [repeat to_bytes_le rev app nth]. rewrite !byte_val_of_Z.
  repeat split.
  - apply int16_round_trip; assumption.
  - apply int16_round_trip; assumption.
  - rewrite <- (int16_round_trip channels Hc) at 3. f_equal. lia.
  - f_equal.
    pose proof (Z.div_mod spm_bits 256 ltac:(lia)).
    pose proof (Z.mod_pos_bound spm_bits 256 eq_refl).
    pose proof (Z.div_mod (spm_bits / 256) 256 ltac:(lia)).
    pose proof (Z.mod_pos_bound (spm_bits / 256) 256 eq_refl).
    pose proof (Z.div_mod (spm_bits / 256 / 256) 256 ltac:(lia)).
    pose proof (Z.mod_pos_bound (spm_bits / 256 / 256) 256 eq_refl).
    pose proof (Z.div_mod (spm_bits / 256 / 256 / 256) 256 ltac:(lia)).
    pose proof (Z.mod_pos_bound (spm_bits / 256 / 256 / 256) 256 eq_refl).
    change (2 ^ 32) with 4294967296 in Hf. lia.
Qed.

(** Well-known binary32 patterns: 1.0, 100.0, -2.5, the two zeros, the
    least subnormal, the infinities and a NaN. *)
Lemma of_bits32_examples :
  PyFloat.of_bits32 0x3f800000 = S754_finite false 4503599627370496 (-52)
  /\ PyFloat.of_bits32 bits_100 = S754_finite false 7036874417766400 (-46)
  /\ PyFloat.of_bits32 0xc0200000 = S754_finite true 5629499534213120 (-51)
  /\ PyFloat.of_bits32 0 = S754_zero false
  /\ PyFloat.of_bits32 0x80000000 = S754_zero true
  /\ PyFloat.of_bits32 1 = S754_finite false 4503599627370496 (-201)
  /\ PyFloat.of_bits32 0x7f800000 = S754_infinity false
  /\ PyFloat.of_bits32 0xff800000 = S754_infinity true
  /\ PyFloat.of_bits32 bits_nan = S754_nan.
Proof. repeat split. Qed.

(** The end-to-end scenario: four samples per trace, 16 bits, 100 scans
    per meter, three traces and three stray bytes. *)
Lemma example_file_decodes :
  decode example_file float_200
  = (Some example_matrix, Some example_info, example_world).
Proof. vm_compute. reflexivity. Qed.

Lemma matrix_is_column_major_witness :
  Np.getitem example_matrix 1 2 = Some (stream_sample 2 example_file 9)
  /\ Np.column example_matrix 1 = [Some 5; Some 6; Some 7; Some 8].
Proof.
  assert (Hrun : decode example_file float_200
                 = (Some example_matrix, Some example_info, example_world))
    by (vm_compute; reflexivity).
  destruct (matrix_is_column_major example_file float_200
              example_matrix example_info example_world Hrun)
    as (_ & Hget & Hcol).
  split.
  - apply (proj2 (Hget 1%nat 2%nat eq_refl eq_refl)).
  - apply (Hcol 1%nat eq_refl).
Defined.

Lemma trace_count_floor_and_trailing_bytes_witness :
  trace_count example_info = data_region_size example_file / (4 * (16 / 8))
  /\ decode (firstn 1048 example_file ++ [xff; xff; xff]) float_200
     = decode example_file float_200.
Proof.
  assert (Hrun : decode example_file float_200
                 = (Some example_matrix, Some example_info, example_world))
    by (vm_compute; reflexivity).
  pose proof (trace_count_floor_and_trailing_bytes example_file float_200
                example_matrix example_info example_world Hrun) as H.
  cbv zeta in H. destruct H as (HT & _ & _ & Hsame).
  split; [exact HT|].
  apply Hsame; vm_compute; reflexivity.
Defined.

Lemma failures_return_none_none_witness :
  fst (read_gssi_dzt_final None float_200 initial) = (None, None).
Proof.
  pose proof (failures_return_none_none None float_200) as H.
  cbv zeta in H. destruct H as (_ & _ & _ & Hopen & _).
  exact (proj1 (Hopen eq_refl)).
Defined.


(** ** When the decoder succeeds *)

Lemma valid_file_bytes_per_trace (file : list byte) :
  field_bits_per_sample file = 16 \/ field_bits_per_sample file = 32 ->
  bytes_per_trace file
  = field_samples_per_trace file
    * Z.of_nat (Np.itemsize (if field_bits_per_sample file =? 16
                             then Np.i2_le else Np.i4_le))
  /\ (0 < field_samples_per_trace file -> 0 < bytes_per_trace file).
Proof.
  intros Hbits. unfold bytes_per_trace.
  destruct Hbits as [E | E]; rewrite E;
    [change (16 / 8) with 2 | change (32 / 8) with 4]; cbn; lia.
Qed.

Lemma valid_file_traces (file : list byte) :
  0 < field_samples_per_trace file ->
  field_bits_per_sample file = 16 \/ field_bits_per_sample file = 32 ->
  bytes_per_trace file <= data_region_size file ->
  0 < data_region_size file / bytes_per_trace file
  /\ data_region_size file / bytes_per_trace file * bytes_per_trace file
     <= data_region_size file.
Proof.
  intros HS Hbits Htrace.
  destruct (valid_file_bytes_per_trace file Hbits) as [_ HB].
  specialize (HB HS). split.
  - apply Z.div_str_pos. lia.
  - pose proof (Z.mul_div_le (data_region_size file) (bytes_per_trace file) HB).
    lia.
Qed.

Lemma valid_file_reshape (file : list byte) :
  0 < field_samples_per_trace file ->
  field_bits_per_sample file = 16 \/ field_bits_per_sample file = 32 ->
  bytes_per_trace file <= data_region_size file ->
  let T := data_region_size file / bytes_per_trace file in
  let raw :=
    Np.read_items
      (Np.itemsize (if field_bits_per_sample file =? 16
                    then Np.i2_le else Np.i4_le))
      (Z.to_nat (T * field_samples_per_trace file)) (skipn 1024 file) in
  length raw = Z.to_nat (T * field_samples_per_trace file)
  /\ Np.reshape_F raw (field_samples_per_trace file, T)
     = inr {| Np.buffer := raw;
              Np.shape := (Z.to_nat (field_samples_per_trace file), Z.to_nat T);
              Np.strides := (1%nat, Z.to_nat (field_samples_per_trace file)) |}.
Proof.
  intros HS Hbits Htrace T raw.
  destruct (valid_file_bytes_per_trace file Hbits) as [HB _].
  destruct (valid_file_traces file HS Hbits Htrace) as [HT Hfit].
  fold T in HT, Hfit.
  assert (Hraw : length raw = Z.to_nat (T * field_samples_per_trace file)).
  { unfold raw. apply read_items_full. rewrite length_skipn.
    unfold data_region_size in Hfit. rewrite HB in Hfit. nia. }
  split; [exact Hraw|].
  unfold Np.reshape_F. rewrite Hraw.
  destruct (Z.leb_spec 0 (field_samples_per_trace file)); [|lia].
  destruct (Z.leb_spec 0 T); [|lia].
  destruct (Z.eqb_spec (Z.of_nat (Z.to_nat (T * field_samples_per_trace file)))
              (field_samples_per_trace file * T)); [reflexivity | nia].
Qed.

Lemma valid_file_outcome (file : list byte) (d : float) :
  (1024 <= length file)%nat ->
  0 < field_samples_per_trace file ->
  field_bits_per_sample file = 16 \/ field_bits_per_sample file = 32 ->
  bytes_per_trace file <= data_region_size file ->
  outcome file d = read_outcome file d.
Proof.
  intros Hlen HS Hbits Htrace.
  destruct (valid_file_traces file HS Hbits Htrace) as [HT _].
  unfold outcome.
  destruct (Nat.ltb_spec (length file) 1024) as [|_]; [lia|].
  assert (Hinv : invalid_header file = false).
  { destruct (invalid_header file) eqn:E; [|reflexivity].
    apply invalid_header_iff in E. unfold valid_width in E.
    destruct E as [|E]; [lia | exfalso; apply E; tauto]. }
  rewrite Hinv.
  destruct (Z.leb_spec (data_region_size file / bytes_per_trace file) 0);
    [lia | reflexivity].
Qed.

(** A file with a complete header, a positive sample count, 16 or 32
    bits per sample, at least one complete trace (fewer than 2^53 of
    them) and a density that is not zero after the fallback is decoded:
    these conditions are sufficient for a matrix and a record. *)
Theorem valid_file_decodes (file : list byte) (d : float) :
  (1024 <= length file)%nat ->
  0 < field_samples_per_trace file ->
  field_bits_per_sample file = 16 \/ field_bits_per_sample file = 32 ->
  bytes_per_trace file <= data_region_size file ->
  data_region_size file / bytes_per_trace file < 2 ^ 53 ->
  (forall s, (if PyFloat.le_zero (field_scans_per_meter file) then d
              else field_scans_per_meter file) <> S754_zero s) ->
  exists m hi w,
    decode file d = (Some m, Some hi, w)
    /\ trace_count hi = data_region_size file / bytes_per_trace file
    /\ last (stdout w) DataReadOk
       = Summary (trace_count hi) (total_length_m hi).
Proof.
  intros Hlen HS Hbits Htrace Hsmall Hnz.
  destruct (valid_file_traces file HS Hbits Htrace) as [HT _].
  destruct (of_int_small _ (conj HT Hsmall)) as (fm & fe & Hof).
  rewrite decode_outcome, (valid_file_outcome file d Hlen HS Hbits Htrace).
  unfold read_outcome. cbv zeta.
  rewrite (proj2 (valid_file_reshape file HS Hbits Htrace)).
  unfold PyFloat.int_truediv. rewrite Hof. unfold PyFloat.truediv.
  set (spm := if PyFloat.le_zero (field_scans_per_meter file) then d
              else field_scans_per_meter file) in *.
  destruct spm as [s| | |] eqn:Espm; [exfalso; apply (Hnz s); reflexivity| | |];
    (eexists; eexists; eexists; split; [reflexivity|]; split; [reflexivity|]);
    cbn [stdout trace_count total_length_m];
    destruct (PyFloat.le_zero (field_scans_per_meter file)); reflexivity.
Qed.

Lemma valid_file_decodes_witness :
  exists m hi w, decode example_file float_200 = (Some m, Some hi, w).
Proof.
  assert (Hlen : (1024 <= length example_file)%nat)
    by (apply Nat.leb_le; vm_compute; reflexivity).
  assert (HS : 0 < field_samples_per_trace example_file)
    by (vm_compute; reflexivity).
  assert (Hb : field_bits_per_sample example_file = 16
               \/ field_bits_per_sample example_file = 32)
    by (left; vm_compute; reflexivity).
  assert (Htr : bytes_per_trace example_file <= data_region_size example_file)
    by (vm_compute; discriminate).
  assert (Hsm : data_region_size example_file / bytes_per_trace example_file
                < 2 ^ 53) by (vm_compute; reflexivity).
  assert (Hnz : forall s,
    (if PyFloat.le_zero (field_scans_per_meter example_file) then float_200
     else field_scans_per_meter example_file) <> S754_zero s)
    by (vm_compute; discriminate).
  destruct (valid_file_decodes example_file float_200 Hlen HS Hb Htr Hsm Hnz)
    as (m & hi & w & Hrun & _).
  exists m, hi, w. exact Hrun.
Defined.

(** When the header density is zero or negative and the default is a
    zero as well, the samples are read, the success of the read is
    announced, and only then the division for the line length raises:
    the run ends in (None, None) with a critical error. *)
Theorem zero_default_discards_read_data (file : list byte) (d : float) (s : bool) :
  (1024 <= length file)%nat ->
  0 < field_samples_per_trace file ->
  field_bits_per_sample file = 16 \/ field_bits_per_sample file = 32 ->
  bytes_per_trace file <= data_region_size file ->
  data_region_size file / bytes_per_trace file < 2 ^ 53 ->
  density_nonpositive (field_scans_per_meter file) ->
  d = S754_zero s ->
  fst (decode file d) = (None, None)
  /\ stdout (snd (decode file d))
     = [Channels (field_channel_count file);
        HeaderParams (field_samples_per_trace file) (field_bits_per_sample file)
          (field_scans_per_meter file);
        SpmFallback d; DataReadOk; CriticalError ZeroDivisionError]
  /\ In (IoRead 1024
           (Z.to_nat (data_region_size file / bytes_per_trace file
                      * bytes_per_trace file)))
       (io (snd (decode file d))).
Proof.
  intros Hlen HS Hbits Htrace Hsmall Hneg ->.
  destruct (valid_file_traces file HS Hbits Htrace) as [HT Hfit].
  destruct (valid_file_bytes_per_trace file Hbits) as [HB _].
  destruct (valid_file_reshape file HS Hbits Htrace) as [Hraw Hre].
  destruct (of_int_small _ (conj HT Hsmall)) as (fm & fe & Hof).
  apply le_zero_nonpositive in Hneg.
  rewrite decode_outcome, (valid_file_outcome file _ Hlen HS Hbits Htrace).
  unfold read_outcome. cbv zeta.
  rewrite Hre, Hneg.
  unfold PyFloat.int_truediv. rewrite Hof. cbn [PyFloat.truediv].
  cbn [fst snd stdout io app].
  split; [reflexivity|]. split; [reflexivity|].
  right; right; right; left. f_equal.
  assert (HN : data_region_size file = Z.of_nat (length file - 1024))
    by (unfold data_region_size; lia).
  rewrite HN in Hfit at 2.
  set (T := data_region_size file / bytes_per_trace file) in *.
  set (wd := Np.itemsize _) in *.
  rewrite HB in *.
  rewrite Nat.min_l; nia.
Qed.

Lemma zero_default_discards_read_data_witness :
  fst (decode zero_density_file (S754_zero false)) = (None, None).
Proof.
  assert (Hlen : (1024 <= length zero_density_file)%nat)
    by (apply Nat.leb_le; vm_compute; reflexivity).
  assert (HS : 0 < field_samples_per_trace zero_density_file)
    by (vm_compute; reflexivity).
  assert (Hb : field_bits_per_sample zero_density_file = 16
               \/ field_bits_per_sample zero_density_file = 32)
    by (left; vm_compute; reflexivity).
  assert (Htr : bytes_per_trace zero_density_file
                <= data_region_size zero_density_file)
    by (vm_compute; discriminate).
  assert (Hsm : data_region_size zero_density_file
                / bytes_per_trace zero_density_file < 2 ^ 53)
    by (vm_compute; reflexivity).
  assert (Hneg : density_nonpositive (field_scans_per_meter zero_density_file))
    by (vm_compute; exact I).
  exact (proj1 (zero_default_discards_read_data zero_density_file
                  (S754_zero false) false Hlen HS Hb Htr Hsm Hneg eq_refl)).
Defined.


(** ** What the return value depends on *)

(** The return value is a function of the length of the file, of the
    header bytes 4..7 and 40..43 and of the data region: the channel
    count at offset 51 and every other header byte never reach it. *)
Theorem return_value_ignores_opaque_header_bytes
    (file file' : list byte) (d : float) :
  length file' = length file ->
  (forall i, In i [4; 5; 6; 7; 40; 41; 42; 43]%nat ->
     nth i file' x00 = nth i file x00) ->
  skipn 1024 file' = skipn 1024 file ->
  fst (decode file' d) = fst (decode file d).
Proof.
  intros Hl Hagree Hdata.
  assert (Hs : field_samples_per_trace file' = field_samples_per_trace file).
  { unfold field_samples_per_trace, byte_at.
    rewrite !Hagree by (simpl; tauto). reflexivity. }
  assert (Hb : field_bits_per_sample file' = field_bits_per_sample file).
  { unfold field_bits_per_sample, byte_at.
    rewrite !Hagree by (simpl; tauto). reflexivity. }
  assert (Hspm : field_scans_per_meter file' = field_scans_per_meter file).
  { unfold field_scans_per_meter, byte_at.
    rewrite !Hagree by (simpl; tauto). reflexivity. }
  rewrite !decode_outcome.
  unfold outcome, invalid_header, read_outcome, bytes_per_trace,
    data_region_size.
  rewrite Hl, Hs, Hb, Hspm, Hdata. cbv zeta.
  destruct (length file <? 1024)%nat; [reflexivity|].
  destruct (_ || _); [reflexivity|].
  destruct (_ <=? 0); [reflexivity|].
  destruct (Np.reshape_F _ _); [reflexivity|].
  destruct (PyFloat.int_truediv _ _); reflexivity.
Qed.

Lemma return_value_ignores_opaque_header_bytes_witness :
  fst (decode (synthetic_header 4 16 bits_100 7 ++ three_traces) float_200)
  = fst (decode example_file float_200).
Proof.
  apply return_value_ignores_opaque_header_bytes.
  - vm_compute. reflexivity.
  - intros i Hi. simpl in Hi.
    destruct Hi as [<-|[<-|[<-|[<-|[<-|[<-|[<-|[<-|[]]]]]]]]];
      vm_compute; reflexivity.
  - vm_compute. reflexivity.
Defined.

(** ** The range of the samples *)

Lemma from_bytes_le_range (bs : list byte) :
  0 <= from_bytes_le bs < 2 ^ (8 * Z.of_nat (length bs)).
Proof.
  induction bs as [|b bs IH].
  - cbn. lia.
  - unfold from_bytes_le in *. cbn [fold_right length].
    pose proof (byte_val_range b).
    replace (8 * Z.of_nat (S (length bs)))
      with (8 + 8 * Z.of_nat (length bs)) by lia.
    rewrite Z.pow_add_r by lia. change (2 ^ 8) with 256. lia.
Qed.

Lemma to_signed_range (w : nat) (u : Z) :
  (0 < w)%nat -> 0 <= u < 2 ^ (8 * Z.of_nat w) ->
  - 2 ^ (8 * Z.of_nat w - 1) <= to_signed w u < 2 ^ (8 * Z.of_nat w - 1).
Proof.
  intros Hw Hu. unfold to_signed.
  assert (E : 2 ^ (8 * Z.of_nat w) = 2 * 2 ^ (8 * Z.of_nat w - 1)).
  { rewrite <- Z.pow_succ_r by lia. f_equal. lia. }
  destruct (Z.ltb_spec u (2 ^ (8 * Z.of_nat w - 1))); lia.
Qed.

Lemma read_items_range (w n : nat) (bs : list byte) (x : Z) :
  (0 < w)%nat -> In x (Np.read_items w n bs) ->
  - 2 ^ (8 * Z.of_nat w - 1) <= x < 2 ^ (8 * Z.of_nat w - 1).
Proof.
  intros Hw. revert bs; induction n as [|n IH]; intros bs Hin;
    cbn [Np.read_items] in Hin; [contradiction|].
  destruct (Nat.ltb_spec (length (firstn w bs)) w) as [|Hfull];
    [contradiction|].
  destruct Hin as [<-|Hin]; [|apply (IH _ Hin)].
  apply to_signed_range; [assumption|].
  pose proof (from_bytes_le_range (firstn w bs)) as Hr.
  assert (length (firstn w bs) = w) as E
    by (pose proof (firstn_le_length w bs); lia).
  rewrite E in Hr. exact Hr.
Qed.

(** Every element of a returned matrix lies in the signed range of
    bits_per_sample bits, and samples_per_trace is at most 32767. *)
Theorem returned_samples_in_signed_range (file : list byte) (d : float)
    (m : Np.ndarray) (hi : header_info) (w : world) :
  decode file d = (Some m, Some hi, w) ->
  samples_per_trace hi <= 32767
  /\ forall s t x,
       Np.getitem m s t = Some x ->
       - 2 ^ (bits_per_sample hi - 1) <= x < 2 ^ (bits_per_sample hi - 1).
Proof.
  intros Hrun. pose proof (decode_success_inv _ _ _ _ _ Hrun) as F.
  split.
  - rewrite (sf_hi_samples _ _ _ _ _ F).
    unfold field_samples_per_trace, int16, byte_at.
    pose proof (byte_val_range (nth 4 file x00)).
    pose proof (byte_val_range (nth 5 file x00)).
    destruct (Z.ltb_spec (byte_val (nth 4 file x00)
                          + 256 * byte_val (nth 5 file x00)) 32768); lia.
  - intros s t x Hget. unfold Np.getitem in Hget.
    destruct (_ && _); [|discriminate].
    apply nth_error_In in Hget.
    rewrite (sf_buffer _ _ _ _ _ F) in Hget.
    rewrite (sf_hi_bits _ _ _ _ _ F).
    destruct (sf_bits _ _ _ _ _ F) as [E | E]; rewrite E in *.
    + apply (read_items_range 2) in Hget; [exact Hget | lia].
    + apply (read_items_range 4) in Hget; [exact Hget | lia].
Qed.

Lemma returned_samples_in_signed_range_witness :
  - 2 ^ (bits_per_sample example_info - 1) <= -1
  < 2 ^ (bits_per_sample example_info - 1).
Proof.
  assert (Hrun : decode example_file float_200
                 = (Some example_matrix, Some example_info, example_world))
    by (vm_compute; reflexivity).
  apply (proj2 (returned_samples_in_signed_range example_file float_200
                  example_matrix example_info example_world Hrun)
           3%nat 2%nat (-1)).
  reflexivity.
Defined.

(** ** Helper facts at work on the synthetic files *)

Lemma eight_bit_outcome_witness :
  fst (decode eight_bit_long_file float_200) = (None, None)
  /\ cursor (snd (decode eight_bit_long_file float_200)) = 1030%nat
  /\ In (IoRead 1024 6) (io (snd (decode eight_bit_long_file float_200))).
Proof.
  assert (Hlen : (1024 <= length eight_bit_long_file)%nat)
    by (apply Nat.leb_le; vm_compute; reflexivity).
  assert (HS : 0 < field_samples_per_trace eight_bit_long_file)
    by (vm_compute; reflexivity).
  assert (Hb : field_bits_per_sample eight_bit_long_file = 8)
    by (vm_compute; reflexivity).
  assert (HN : field_samples_per_trace eight_bit_long_file
               <= data_region_size eight_bit_long_file)
    by (vm_compute; discriminate).
  rewrite (eight_bit_outcome eight_bit_long_file float_200 Hlen HS Hb HN).
  split; [reflexivity|]. split; [vm_compute; reflexivity|].
  right; right; right; left. vm_compute. reflexivity.
Defined.

Lemma success_invariant_witness :
  density_positive (scans_per_meter example_info)
  /\ 1 <= trace_count example_info.
Proof.
  assert (Hrun : decode example_file float_200
                 = (Some example_matrix, Some example_info, example_world))
    by (vm_compute; reflexivity).
  destruct (success_invariant example_file float_200
              example_matrix example_info example_world Hrun)
    as (_ & _ & HT & _ & Hpos).
  split; [|exact HT].
  apply Hpos; [vm_compute; exact I | vm_compute; discriminate].
Defined.


(** ** Exporting images *)

Lemma plot_and_save_draws (ok : image_path -> bool) (data : Np.ndarray)
    (title : plot_title) (path : image_path) (dpi : Z) (st : studio) :
  (0 < array_size data)%nat ->
  _plot_and_save_image ok data title path dpi st
  = (inr tt, draw ok st {| fig_data := data; fig_title := title;
                           fig_path := path; fig_dpi := dpi |}).
Proof.
  intros Hsize. unfold _plot_and_save_image, draw. cbn [fig_path].
  destruct (Nat.eqb_spec (array_size data) 0) as [|_]; [lia|].
  destruct (ok path); [|rewrite app_nil_r]; reflexivity.
Qed.

Lemma plot_and_save_empty (ok : image_path -> bool) (data : Np.ndarray)
    (title : plot_title) (path : image_path) (dpi : Z) (st : studio) :
  array_size data = 0%nat ->
  _plot_and_save_image ok data title path dpi st = (inl IndexError, st).
Proof.
  intros Hsize. unfold _plot_and_save_image. rewrite Hsize. reflexivity.
Qed.

(** A window that starts inside the columns of a matrix with rows has
    items; one that starts at or past the last column has none. *)
Lemma slice_columns_empty (a : Np.ndarray) (lo hi : Z) :
  Z.of_nat (snd (Np.shape a)) <= lo ->
  array_size (slice_columns a lo hi) = 0%nat.
Proof.
  intros Hlo. unfold array_size, slice_columns. cbn [Np.shape fst snd].
  assert (Z.min hi (Z.of_nat (snd (Np.shape a)))
          - Z.min lo (Z.of_nat (snd (Np.shape a))) <= 0) by lia.
  nia.
Qed.

Lemma slice_columns_items (a : Np.ndarray) (lo hi : Z) :
  (0 < fst (Np.shape a))%nat ->
  0 <= lo < hi -> lo < Z.of_nat (snd (Np.shape a)) ->
  (0 < array_size (slice_columns a lo hi))%nat.
Proof.
  intros Hrows Hlo Hhi. unfold array_size, slice_columns.
  cbn [Np.shape fst snd].
  assert (0 < Z.min hi (Z.of_nat (snd (Np.shape a)))
              - Z.min lo (Z.of_nat (snd (Np.shape a)))) by lia.
  nia.
Qed.

Lemma for_each_draws {A} (ok : image_path -> bool) (l : list A)
    (body : A -> E unit) (fig : A -> figure) (st : studio) :
  (forall x st', In x l -> body x st' = (inr tt, draw ok st' (fig x))) ->
  for_each l body st = (inr tt, fold_left (draw ok) (map fig l) st).
Proof.
  revert st; induction l as [|x l IH]; intros st Hbody; [reflexivity|].
  cbn [for_each map fold_left]. unfold bindE.
  rewrite Hbody by (left; reflexivity).
  apply IH. intros y st' Hy. apply Hbody. right. exact Hy.
Qed.

Lemma fold_draw (ok : image_path -> bool) (figs : list figure) (st : studio) :
  drawn (fold_left (draw ok) figs st) = drawn st ++ figs
  /\ written (fold_left (draw ok) figs st)
     = written st ++ filter ok (map fig_path figs)
  /\ console (fold_left (draw ok) figs st)
     = console st
       ++ map (fun fig => if ok (fig_path fig) then ImageSaved (fig_path fig)
                          else SaveFailed (fig_path fig)) figs.
Proof.
  revert st; induction figs as [|fig figs IH]; intros st.
  - cbn. rewrite !app_nil_r. repeat split.
  - cbn [fold_left map filter]. destruct (IH (draw ok st fig)) as (Hd & Hw & Hc).
    rewrite Hd, Hw, Hc. unfold draw. cbn [drawn written console].
    rewrite <- !app_assoc. destruct (ok (fig_path fig)); repeat split.
Qed.

Lemma enumerate_map_seq {A} (f : nat -> A) (n : nat) :
  enumerate (map f (seq 0 n)) = map (fun k => (Z.of_nat k, f k)) (seq 0 n).
Proof.
  unfold enumerate. rewrite length_map, length_seq.
  generalize (seq 0 n). intros l. induction l as [|x l IH]; [reflexivity|].
  cbn [map combine]. rewrite IH. reflexivity.
Qed.

Lemma range_from_zero (stop step : Z) :
  0 < step ->
  range 0 stop step
  = inr (map (fun k => Z.of_nat k * step) (seq 0 (window_count step stop))).
Proof.
  intros Hstep. unfold range, window_count.
  destruct (Z.eqb_spec step 0); [lia|].
  destruct (Z.ltb_spec 0 step); [|lia].
  rewrite Z.sub_0_r. reflexivity.
Qed.

(** Window [k] of [window_count] windows starts inside the traces. *)
Lemma window_start_bound (window total : Z) (k : nat) :
  0 < window -> (k < window_count window total)%nat ->
  0 <= Z.of_nat k * window < total.
Proof.
  intros HW Hk. unfold window_count in Hk.
  assert (Hq : Z.of_nat k < (total + window - 1) / window) by lia.
  pose proof (Z.mul_div_le (total + window - 1) window HW).
  split; nia.
Qed.

Section ExportRuns.

Variable savefig_ok : image_path -> bool.
Variables (radar_data : Np.ndarray) (info : header_info).
Variables (base_filename output_dir : String.string) (kw : kwargs).
Variable st : studio.

Let threshold := kwargs_get (kw_length_threshold_m kw) (PyInt 100).
Let window := kwargs_get (kw_window_traces kw) 1200.
Let dpi := kwargs_get (kw_dpi kw) 300.
Let run :=
  process_and_export_images savefig_ok radar_data info base_filename
    output_dir kw st.

Lemma export_single_run :
  float_lt (total_length_m info) threshold = true ->
  (0 < array_size radar_data)%nat ->
  run
  = (inr tt,
     let st1 :=
       draw savefig_ok
         {| drawn := drawn st; written := written st;
            console := console st
                       ++ [SingleImage (total_length_m info) threshold] |}
         {| fig_data := radar_data;
            fig_title := FullTitle base_filename (total_length_m info);
            fig_path := FullPath output_dir base_filename;
            fig_dpi := dpi |} in
     {| drawn := drawn st1; written := written st1;
        console := console st1 ++ [Processed base_filename] |}).
Proof.
  intros Hlt Hsize. unfold run, process_and_export_images.
  fold threshold. rewrite Hlt.
  unfold bindE, say. rewrite plot_and_save_draws by exact Hsize. reflexivity.
Qed.

Lemma export_windows_run :
  float_lt (total_length_m info) threshold = false ->
  0 < window ->
  (0 < fst (Np.shape radar_data))%nat ->
  trace_count info <= Z.of_nat (snd (Np.shape radar_data)) ->
  run
  = (inr tt,
     let st1 :=
       fold_left (draw savefig_ok)
         (map (window_figure radar_data base_filename output_dir window
                 (trace_count info) dpi)
            (seq 0 (window_count window (trace_count info))))
         {| drawn := drawn st; written := written st;
            console := console st
                       ++ [Splitting (total_length_m info) threshold] |} in
     {| drawn := drawn st1; written := written st1;
        console := console st1 ++ [Processed base_filename] |}).
Proof.
  intros Hlt HW Hrows Hcols. unfold run, process_and_export_images.
  fold threshold window dpi. rewrite Hlt.
  unfold bindE at 1 2 3, say at 1, liftE.
  rewrite (range_from_zero _ _ HW), enumerate_map_seq.
  rewrite (for_each_draws savefig_ok _ _
             (fun p => window_figure radar_data base_filename output_dir window
                         (trace_count info) dpi (Z.to_nat (fst p)))).
  - rewrite map_map. cbn [fst].
    erewrite map_ext; [reflexivity|].
    intros k. cbn beta. rewrite Nat2Z.id. reflexivity.
  - intros [i start] st' Hin. apply in_map_iff in Hin.
    destruct Hin as (k & [= <- <-] & Hk). apply in_seq in Hk.
    destruct (window_start_bound window (trace_count info) k HW ltac:(lia)).
    destruct (Z.eqb_spec (Z.of_nat k * window)
                (Z.min (Z.of_nat k * window + window) (trace_count info)));
      [lia|].
    rewrite plot_and_save_draws by (apply slice_columns_items; lia).
    cbn [fst]. rewrite Nat2Z.id. reflexivity.
Qed.

End ExportRuns.

Lemma slice_columns_getitem (a : Np.ndarray) (lo hi : Z) (s j : nat) :
  0 <= lo <= hi -> hi <= Z.of_nat (snd (Np.shape a)) ->
  Z.of_nat j < hi - lo ->
  Np.getitem (slice_columns a lo hi) s j = Np.getitem a s (Z.to_nat lo + j).
Proof.
  intros Hlo Hhi Hj. unfold Np.getitem, slice_columns.
  cbn [Np.shape Np.strides Np.buffer fst snd].
  rewrite !Z.min_l by lia.
  destruct (Nat.ltb_spec s (fst (Np.shape a))); [|reflexivity].
  destruct (Nat.ltb_spec j (Z.to_nat (hi - lo))); [|lia].
  destruct (Nat.ltb_spec (Z.to_nat lo + j) (snd (Np.shape a))); [|lia].
  cbn [andb]. rewrite nth_error_skipn. f_equal. lia.
Qed.

(** A line shorter than the threshold, whose matrix has at least one
    item, is exported as one image of the whole matrix, saved or reported
    as not saved, and the export ends normally; the window length is not
    looked at, so even a window of zero traces does no harm here. *)
Theorem short_line_exports_one_image (savefig_ok : image_path -> bool)
    (radar_data : Np.ndarray) (info : header_info)
    (base_filename output_dir : String.string) (kw : kwargs) (st : studio) :
  float_lt (total_length_m info)
    (kwargs_get (kw_length_threshold_m kw) (PyInt 100)) = true ->
  (0 < array_size radar_data)%nat ->
  let run := process_and_export_images savefig_ok radar_data info
               base_filename output_dir kw st in
  let path := FullPath output_dir base_filename in
  fst run = inr tt
  /\ drawn (snd run)
     = drawn st
       ++ [{| fig_data := radar_data;
              fig_title := FullTitle base_filename (total_length_m info);
              fig_path := path;
              fig_dpi := kwargs_get (kw_dpi kw) 300 |}]
  /\ written (snd run)
     = written st ++ (if savefig_ok path then [path] else [])
  /\ console (snd run)
     = console st
       ++ [SingleImage (total_length_m info)
             (kwargs_get (kw_length_threshold_m kw) (PyInt 100));
           if savefig_ok path then ImageSaved path else SaveFailed path;
           Processed base_filename].
Proof.
  intros Hlt Hsize run path. unfold run.
  rewrite export_single_run by assumption.
  cbn [fst snd draw drawn written console fig_path].
  rewrite <- !app_assoc. repeat split.
Qed.

Lemma short_line_exports_one_image_witness :
  length (drawn (snd (process_and_export_images (fun _ => true)
                        example_matrix example_info String.EmptyString
                        String.EmptyString main_kwargs empty_studio)))
  = 1%nat.
Proof.
  assert (Hlt : float_lt (total_length_m example_info)
                  (kwargs_get (kw_length_threshold_m main_kwargs) (PyInt 100))
                = true) by (vm_compute; reflexivity).
  assert (Hsize : (0 < array_size example_matrix)%nat)
    by (vm_compute; lia).
  pose proof (short_line_exports_one_image (fun _ => true) example_matrix
                example_info String.EmptyString String.EmptyString
                main_kwargs empty_studio Hlt Hsize) as H.
  cbv zeta in H. destruct H as (_ & Hd & _).
  rewrite Hd. reflexivity.
Defined.



Lemma range_negative_step (stop step : Z) :
  step < 0 -> 0 <= stop -> range 0 stop step = inr [].
Proof.
  intros Hstep Hstop. unfold range.
  destruct (Z.eqb_spec step 0) as [|_]; [lia|].
  destruct (Z.ltb_spec 0 step) as [|_]; [lia|].
  assert (Hq : (0 - stop - step - 1) / - step < 1)
    by (apply Z.div_lt_upper_bound; lia).
  replace (Z.to_nat ((0 - stop - step - 1) / - step)) with 0%nat by lia.
  reflexivity.
Qed.

Lemma export_zero_window_run (savefig_ok : image_path -> bool)
    (radar_data : Np.ndarray) (info : header_info)
    (base_filename output_dir : String.string) (kw : kwargs) (st : studio) :
  float_lt (total_length_m info)
    (kwargs_get (kw_length_threshold_m kw) (PyInt 100)) = false ->
  kwargs_get (kw_window_traces kw) 1200 = 0 ->
  process_and_export_images savefig_ok radar_data info base_filename
    output_dir kw st
  = (inl ValueError,
     {| drawn := drawn st; written := written st;
        console := console st
                   ++ [Splitting (total_length_m info)
                         (kwargs_get (kw_length_threshold_m kw) (PyInt 100))] |}).
Proof.
  intros Hlt HW. unfold process_and_export_images.
  rewrite Hlt, HW. reflexivity.
Qed.

Lemma export_negative_window_run (savefig_ok : image_path -> bool)
    (radar_data : Np.ndarray) (info : header_info)
    (base_filename output_dir : String.string) (kw : kwargs) (st : studio) :
  float_lt (total_length_m info)
    (kwargs_get (kw_length_threshold_m kw) (PyInt 100)) = false ->
  kwargs_get (kw_window_traces kw) 1200 < 0 ->
  0 <= trace_count info ->
  process_and_export_images savefig_ok radar_data info base_filename
    output_dir kw st
  = (inr tt,
     {| drawn := drawn st; written := written st;
        console := (console st
                    ++ [Splitting (total_length_m info)
                          (kwargs_get (kw_length_threshold_m kw) (PyInt 100))])
                   ++ [Processed base_filename] |}).
Proof.
  intros Hlt HW HT. unfold process_and_export_images.
  rewrite Hlt. unfold bindE at 1 2 3, say at 1, liftE.
  rewrite range_negative_step by lia. reflexivity.
Qed.

(** A line that is not shorter than the threshold, with a window that is
    not positive, gives no image at all: a window of zero traces raises
    ValueError out of the export, before the closing message; a negative
    window draws nothing and still reports the file as processed. *)
Theorem nonpositive_window_draws_nothing (savefig_ok : image_path -> bool)
    (radar_data : Np.ndarray) (info : header_info)
    (base_filename output_dir : String.string) (kw : kwargs) (st : studio) :
  float_lt (total_length_m info)
    (kwargs_get (kw_length_threshold_m kw) (PyInt 100)) = false ->
  kwargs_get (kw_window_traces kw) 1200 <= 0 ->
  0 <= trace_count info ->
  let run := process_and_export_images savefig_ok radar_data info
               base_filename output_dir kw st in
  let splitting := Splitting (total_length_m info)
                     (kwargs_get (kw_length_threshold_m kw) (PyInt 100)) in
  drawn (snd run) = drawn st
  /\ written (snd run) = written st
  /\ (kwargs_get (kw_window_traces kw) 1200 = 0 ->
      fst run = inl ValueError
      /\ console (snd run) = console st ++ [splitting])
  /\ (kwargs_get (kw_window_traces kw) 1200 < 0 ->
      fst run = inr tt
      /\ console (snd run)
         = console st ++ [splitting; Processed base_filename]).
Proof.
  intros Hlt HW HT run splitting. unfold run.
  destruct (Z.eq_dec (kwargs_get (kw_window_traces kw) 1200) 0) as [E|E].
  - rewrite export_zero_window_run by assumption.
    cbn [fst snd drawn written console]. repeat split; lia.
  - rewrite export_negative_window_run by (assumption || lia).
    cbn [fst snd drawn written console].
    rewrite <- app_assoc. repeat split; lia.
Qed.

Lemma nonpositive_window_draws_nothing_witness :
  fst (process_and_export_images (fun _ => true) example_matrix example_info
         String.EmptyString String.EmptyString broken_kwargs empty_studio)
  = inl ValueError.
Proof.
  assert (Hlt : float_lt (total_length_m example_info)
                  (kwargs_get (kw_length_threshold_m broken_kwargs) (PyInt 100))
                = false) by (vm_compute; reflexivity).
  assert (HW : kwargs_get (kw_window_traces broken_kwargs) 1200 <= 0)
    by (vm_compute; discriminate).
  assert (HT : 0 <= trace_count example_info) by (vm_compute; discriminate).
  pose proof (nonpositive_window_draws_nothing (fun _ => true) example_matrix
                example_info String.EmptyString String.EmptyString
                broken_kwargs empty_studio Hlt HW HT) as H.
  cbv zeta in H. destruct H as (_ & _ & Hzero & _).
  exact (proj1 (Hzero eq_refl)).
Defined.

Lemma NoDup_map_injective {A B} (f : A -> B) (l : list A) :
  (forall x y, f x = f y -> x = y) -> NoDup l -> NoDup (map f l).
Proof.
  intros Hinj Hl. induction Hl as [|x l Hx Hl IH]; cbn [map]; constructor.
  - intros Hin. apply in_map_iff in Hin. destruct Hin as (y & Hy & Hin).
    apply Hinj in Hy. subst y. contradiction.
  - exact IH.
Qed.

Lemma window_paths_distinct (radar_data : Np.ndarray)
    (base_filename output_dir : String.string) (window total dpi : Z)
    (n : nat) :
  NoDup (map fig_path
           (map (window_figure radar_data base_filename output_dir window
                   total dpi) (seq 0 n))).
Proof.
  rewrite map_map. cbn [window_figure fig_path].
  apply NoDup_map_injective; [|apply seq_NoDup].
  intros a b Hab. injection Hab as Hab. lia.
Qed.

(** Saving is tried for every figure and a failed save stops nothing:
    for a matrix with rows and columns, at least as many columns as the
    record counts traces, when the line is short or the window positive,
    the export ends normally whatever [savefig] does, the figures drawn
    are the same, the files written are the paths of the drawn figures
    that could be saved, in order, and no two figures of a run go to the
    same path. *)
Theorem failed_saves_do_not_stop_export (savefig_ok : image_path -> bool)
    (radar_data : Np.ndarray) (info : header_info)
    (base_filename output_dir : String.string) (kw : kwargs) (st : studio) :
  (0 < fst (Np.shape radar_data))%nat ->
  (0 < snd (Np.shape radar_data))%nat ->
  trace_count info <= Z.of_nat (snd (Np.shape radar_data)) ->
  float_lt (total_length_m info)
    (kwargs_get (kw_length_threshold_m kw) (PyInt 100)) = true
  \/ 0 < kwargs_get (kw_window_traces kw) 1200 ->
  exists figs : list figure,
    (forall ok : image_path -> bool,
       let run := process_and_export_images ok radar_data info
                    base_filename output_dir kw st in
       fst run = inr tt
       /\ drawn (snd run) = drawn st ++ figs
       /\ written (snd run) = written st ++ filter ok (map fig_path figs)
       /\ length (console (snd run)) = (length (console st) + length figs + 2)%nat)
    /\ NoDup (map fig_path figs).
Proof.
  intros Hrows Hcols Htraces Hcase.
  assert (Hsize : (0 < array_size radar_data)%nat)
    by (unfold array_size; nia).
  destruct (float_lt (total_length_m info)
              (kwargs_get (kw_length_threshold_m kw) (PyInt 100))) eqn:Hlt.
  - exists [{| fig_data := radar_data;
               fig_title := FullTitle base_filename (total_length_m info);
               fig_path := FullPath output_dir base_filename;
               fig_dpi := kwargs_get (kw_dpi kw) 300 |}].
    split.
    + intros ok run. unfold run. rewrite export_single_run by assumption.
      cbn [fst snd draw drawn written console fig_path map filter].
      rewrite !length_app. cbn [length].
      destruct (ok _); repeat split; lia.
    + cbn. constructor; [intros [] | constructor].
  - destruct Hcase as [|HW]; [discriminate|].
    exists (map (window_figure radar_data base_filename output_dir
                   (kwargs_get (kw_window_traces kw) 1200) (trace_count info)
                   (kwargs_get (kw_dpi kw) 300))
              (seq 0 (window_count (kwargs_get (kw_window_traces kw) 1200)
                        (trace_count info)))).
    split; [|apply window_paths_distinct].
    intros ok run. unfold run. rewrite export_windows_run by assumption.
    cbn [fst snd drawn written console].
    match goal with
    | |- context [fold_left (draw ok) ?figs ?st0] =>
        destruct (fold_draw ok figs st0) as (Hd & Hw & Hc)
    end.
    rewrite Hd, Hw, Hc. cbn [drawn written console].
    rewrite !length_app, !length_map. cbn [length].
    repeat split; lia.
Qed.

Lemma failed_saves_do_not_stop_export_witness :
  exists figs : list figure,
    drawn (snd (process_and_export_images (fun _ => false) example_matrix
                  example_info String.EmptyString String.EmptyString
                  narrow_kwargs empty_studio)) = figs
    /\ NoDup (map fig_path figs).
Proof.
  assert (HW : float_lt (total_length_m example_info)
                 (kwargs_get (kw_length_threshold_m narrow_kwargs) (PyInt 100))
               = true
               \/ 0 < kwargs_get (kw_window_traces narrow_kwargs) 1200)
    by (right; vm_compute; reflexivity).
  assert (Hrows : (0 < fst (Np.shape example_matrix))%nat)
    by (vm_compute; lia).
  assert (Hcols : (0 < snd (Np.shape example_matrix))%nat)
    by (vm_compute; lia).
  assert (Htraces : trace_count example_info
                    <= Z.of_nat (snd (Np.shape example_matrix)))
    by (vm_compute; discriminate).
  destruct (failed_saves_do_not_stop_export (fun _ => true) example_matrix
              example_info String.EmptyString String.EmptyString
              narrow_kwargs empty_studio Hrows Hcols Htraces HW)
    as (figs & Hrun & Hnodup).
  exists figs. split; [|exact Hnodup].
  destruct (Hrun (fun _ => false)) as (_ & Hd & _). exact Hd.
Defined.

(** ** Figures without items *)

(** A loop whose body raises at [x] stops there. *)
Lemma for_each_raises {A} (ok : image_path -> bool) (l1 l2 : list A) (x : A)
    (body : A -> E unit) (fig : A -> figure) (e : exn) (st : studio) :
  (forall y st', In y l1 -> body y st' = (inr tt, draw ok st' (fig y))) ->
  (forall st', body x st' = (inl e, st')) ->
  for_each (l1 ++ x :: l2) body st
  = (inl e, fold_left (draw ok) (map fig l1) st).
Proof.
  revert st; induction l1 as [|y l1 IH]; intros st Hbody Hx.
  - cbn [app for_each map fold_left]. unfold bindE. rewrite Hx. reflexivity.
  - cbn [app for_each map fold_left]. unfold bindE.
    rewrite Hbody by (left; reflexivity).
    apply IH; [|exact Hx].
    intros z st' Hz. apply Hbody. right. exact Hz.
Qed.

(** The first window that starts at or past column [cols]. *)
Lemma window_count_start (window cols : Z) :
  0 < window -> 0 <= cols ->
  cols <= Z.of_nat (window_count window cols) * window.
Proof.
  intros HW Hc. unfold window_count.
  pose proof (Z.mul_succ_div_gt (cols + window - 1) window HW).
  assert (0 <= (cols + window - 1) / window)
    by (apply Z.div_pos; lia).
  nia.
Qed.

(** The export raises where [np.percentile] is given an array without
    items. On the single-image branch this is a matrix without items:
    nothing is drawn. On the window branch it is the first window that
    starts at or past the last column of the matrix, which happens when
    the record counts more traces than the matrix has columns: the
    windows before it are drawn and saved, then IndexError leaves the
    export. In both cases the closing message is not printed. *)
Theorem figure_without_items_raises (savefig_ok : image_path -> bool)
    (radar_data : Np.ndarray) (info : header_info)
    (base_filename output_dir : String.string) (kw : kwargs) (st : studio) :
  let threshold := kwargs_get (kw_length_threshold_m kw) (PyInt 100) in
  let window := kwargs_get (kw_window_traces kw) 1200 in
  let cols := Z.of_nat (snd (Np.shape radar_data)) in
  let run := process_and_export_images savefig_ok radar_data info
               base_filename output_dir kw st in
  let figs :=
    map (window_figure radar_data base_filename output_dir window
           (trace_count info) (kwargs_get (kw_dpi kw) 300))
      (seq 0 (window_count window cols)) in
  (float_lt (total_length_m info) threshold = true ->
   array_size radar_data = 0%nat ->
   run = (inl IndexError,
          {| drawn := drawn st; written := written st;
             console := console st
                        ++ [SingleImage (total_length_m info) threshold] |}))
  /\ (float_lt (total_length_m info) threshold = false ->
      0 < window ->
      (0 < fst (Np.shape radar_data))%nat ->
      Z.of_nat (window_count window cols) * window < trace_count info ->
      fst run = inl IndexError
      /\ drawn (snd run) = drawn st ++ figs
      /\ written (snd run)
         = written st ++ filter savefig_ok (map fig_path figs)
      /\ console (snd run)
         = console st
           ++ Splitting (total_length_m info) threshold
              :: map (fun fig => if savefig_ok (fig_path fig)
                                 then ImageSaved (fig_path fig)
                                 else SaveFailed (fig_path fig)) figs).
Proof.
  intros threshold window cols run figs. split.
  - intros Hlt Hsize. unfold run, process_and_export_images.
    fold threshold. rewrite Hlt. unfold bindE, say.
    rewrite plot_and_save_empty by exact Hsize. reflexivity.
  - intros Hlt HW Hrows Hpast.
    set (k0 := window_count window cols) in *.
    set (n := window_count window (trace_count info)).
    assert (Hcols : cols <= Z.of_nat k0 * window)
      by (apply window_count_start; unfold cols; lia).
    assert (Hk0 : (k0 < n)%nat).
    { unfold n, window_count.
      assert (Z.of_nat k0 + 1 <= (trace_count info + window - 1) / window)
        by (apply Z.div_le_lower_bound; lia).
      lia. }
    assert (Hseq : seq 0 n = seq 0 k0 ++ k0 :: seq (S k0) (n - S k0)).
    { replace n with (k0 + S (n - S k0))%nat at 1 by lia.
      rewrite seq_app. reflexivity. }
    assert (Hrun :
      run
      = (inl IndexError,
         fold_left (draw savefig_ok) figs
           {| drawn := drawn st; written := written st;
              console := console st
                         ++ [Splitting (total_length_m info) threshold] |})).
    { unfold run, process_and_export_images.
      fold threshold window. rewrite Hlt.
      unfold bindE at 1 2 3, say at 1, liftE.
      rewrite (range_from_zero _ _ HW), enumerate_map_seq.
      fold n. rewrite Hseq, map_app. cbn [map].
      rewrite (for_each_raises savefig_ok _ _ _ _
                 (fun p => window_figure radar_data base_filename output_dir
                             window (trace_count info)
                             (kwargs_get (kw_dpi kw) 300) (Z.to_nat (fst p)))
                 IndexError).
      - rewrite map_map. cbn [fst]. unfold figs.
        rewrite (map_ext _ (window_figure radar_data base_filename output_dir
                              window (trace_count info)
                              (kwargs_get (kw_dpi kw) 300)))
          by (intros k; cbn beta; rewrite Nat2Z.id; reflexivity).
        reflexivity.
      - intros [i start] st' Hin. apply in_map_iff in Hin.
        destruct Hin as (k & [= <- <-] & Hk). apply in_seq in Hk.
        destruct (window_start_bound window cols k HW ltac:(fold k0; lia)).
        destruct (window_start_bound window (trace_count info) k HW
                    ltac:(fold n; lia)).
        destruct (Z.eqb_spec (Z.of_nat k * window)
                    (Z.min (Z.of_nat k * window + window) (trace_count info)));
          [lia|].
        rewrite plot_and_save_draws
          by (apply slice_columns_items; fold cols; lia).
        cbn [fst]. rewrite Nat2Z.id. reflexivity.
      - intros st'.
        destruct (Z.eqb_spec (Z.of_nat k0 * window)
                    (Z.min (Z.of_nat k0 * window + window) (trace_count info)));
          [lia|].
        apply plot_and_save_empty. apply slice_columns_empty. fold cols. lia. }
    rewrite Hrun. cbn [fst snd].
    match goal with
    | |- context [fold_left (draw savefig_ok) figs ?st0] =>
        destruct (fold_draw savefig_ok figs st0) as (Hd & Hw & Hc)
    end.
    rewrite Hd, Hw, Hc. cbn [drawn written console].
    rewrite <- app_assoc. repeat split.
Qed.

Lemma figure_without_items_raises_witness :
  fst (process_and_export_images (fun _ => true) example_matrix
         overlong_info String.EmptyString String.EmptyString narrow_kwargs
         empty_studio) = inl IndexError
  /\ length (drawn (snd (process_and_export_images (fun _ => true)
                           example_matrix overlong_info String.EmptyString
                           String.EmptyString narrow_kwargs empty_studio)))
     = 2%nat
  /\ fst (process_and_export_images (fun _ => true) empty_matrix
            example_info String.EmptyString String.EmptyString main_kwargs
            empty_studio) = inl IndexError.
Proof.
  pose proof (figure_without_items_raises (fun _ => true) example_matrix
                overlong_info String.EmptyString String.EmptyString
                narrow_kwargs empty_studio) as H.
  cbv zeta in H. destruct H as [_ Hwin].
  destruct Hwin as (Hr & Hd & _);
    [vm_compute; reflexivity | vm_compute; reflexivity | vm_compute; lia
    | vm_compute; reflexivity |].
  pose proof (figure_without_items_raises (fun _ => true) empty_matrix
                example_info String.EmptyString String.EmptyString
                main_kwargs empty_studio) as H.
  cbv zeta in H. destruct H as [Hone _].
  split; [exact Hr|]. split; [rewrite Hd; reflexivity|].
  rewrite Hone; [reflexivity | vm_compute; reflexivity | reflexivity].
Defined.

(** ** From the file to the figures *)

(** What the export needs of a decoded matrix: it has rows and columns,
    and as many columns as the record counts traces. *)
Lemma decoded_matrix_has_items (file : list byte) (d : float)
    (m : Np.ndarray) (hi : header_info) (w : world) :
  decode file d = (Some m, Some hi, w) ->
  (0 < fst (Np.shape m))%nat
  /\ (0 < snd (Np.shape m))%nat
  /\ trace_count hi = Z.of_nat (snd (Np.shape m)).
Proof.
  intros Hrun. pose proof (decode_success_inv _ _ _ _ _ Hrun) as F.
  rewrite (sf_shape _ _ _ _ _ F), (sf_hi_traces _ _ _ _ _ F). cbn [fst snd].
  pose proof (sf_traces _ _ _ _ _ F). pose proof (sf_samples _ _ _ _ _ F).
  lia.
Qed.

Lemma nth_error_map_seq {A} (f : nat -> A) (n k : nat) (x : A) :
  nth_error (map f (seq 0 n)) k = Some x -> (k < n)%nat /\ x = f k.
Proof.
  intros H.
  assert (Hk : (k < n)%nat).
  { assert (Hlt : (k < length (map f (seq 0 n)))%nat)
      by (apply nth_error_Some; rewrite H; discriminate).
    rewrite length_map, length_seq in Hlt. exact Hlt. }
  split; [exact Hk|].
  rewrite nth_error_map, nth_error_seq in H.
  destruct (Nat.ltb_spec k n); [|lia].
  cbn in H. injection H as <-. reflexivity.
Qed.

(** Decoding a file and exporting the result with a positive window:
    pixel (s, j) of the k-th figure drawn is element (s, k * window + j)
    of the decoded matrix, that is sample (k * window + j) *
    samples_per_trace + s of the data region of the file. *)
Theorem window_shows_the_decoded_columns (savefig_ok : image_path -> bool)
    (file : list byte) (d : float)
    (m : Np.ndarray) (hi : header_info) (w : world)
    (base_filename output_dir : String.string) (kw : kwargs)
    (k s j : nat) (fig : figure) :
  decode file d = (Some m, Some hi, w) ->
  float_lt (total_length_m hi)
    (kwargs_get (kw_length_threshold_m kw) (PyInt 100)) = false ->
  0 < kwargs_get (kw_window_traces kw) 1200 ->
  nth_error
    (drawn (snd (process_and_export_images savefig_ok m hi base_filename
                   output_dir kw empty_studio))) k = Some fig ->
  Z.of_nat s < samples_per_trace hi ->
  Z.of_nat j < kwargs_get (kw_window_traces kw) 1200 ->
  Z.of_nat k * kwargs_get (kw_window_traces kw) 1200 + Z.of_nat j
  < trace_count hi ->
  let t :=
    Nat.add (Z.to_nat (Z.of_nat k * kwargs_get (kw_window_traces kw) 1200)) j in
  fig_path fig = WindowPath output_dir base_filename (Z.of_nat k + 1)
  /\ Np.getitem (fig_data fig) s j = Np.getitem m s t
  /\ Np.getitem (fig_data fig) s j
     = Some (stream_sample (Z.to_nat (bits_per_sample hi / 8)) file
               (t * Z.to_nat (samples_per_trace hi) + s)).
Proof.
  intros Hrun Hlt HW Hfig Hs Hj Hcol t.
  pose proof (decode_success_inv _ _ _ _ _ Hrun) as F.
  destruct (decoded_matrix_has_items file d m hi w Hrun)
    as (Hrows & _ & Htraces).
  rewrite export_windows_run in Hfig by (assumption || lia).
  cbn [snd drawn] in Hfig.
  match type of Hfig with
  | context [fold_left (draw savefig_ok) ?figs ?st0] =>
      destruct (fold_draw savefig_ok figs st0) as (Hd & _ & _)
  end.
  rewrite Hd in Hfig. cbn [drawn empty_studio app] in Hfig.
  apply nth_error_map_seq in Hfig. destruct Hfig as [Hk ->].
  cbn [window_figure fig_path fig_data].
  split; [reflexivity|].
  assert (Hcols : Z.of_nat (snd (Np.shape m)) = trace_count hi)
    by (symmetry; exact Htraces).
  assert (Hslice :
    Np.getitem
      (slice_columns m (Z.of_nat k * kwargs_get (kw_window_traces kw) 1200)
         (Z.min (Z.of_nat k * kwargs_get (kw_window_traces kw) 1200
                 + kwargs_get (kw_window_traces kw) 1200) (trace_count hi)))
      s j = Np.getitem m s t).
  { apply slice_columns_getitem; lia. }
  split; [exact Hslice|].
  rewrite Hslice.
  apply (proj2 (success_getitem file d m hi w Hrun s t Hs ltac:(unfold t; lia))).
Qed.

Lemma window_shows_the_decoded_columns_witness :
  Np.getitem
    (fig_data (window_figure example_matrix String.EmptyString
                 String.EmptyString 2 3 300 1)) 3 0
  = Some (stream_sample 2 example_file 11).
Proof.
  assert (Hrun : decode example_file float_200
                 = (Some example_matrix, Some example_info, example_world))
    by (vm_compute; reflexivity).
  assert (Hlt : float_lt (total_length_m example_info)
                  (kwargs_get (kw_length_threshold_m narrow_kwargs) (PyInt 100))
                = false) by (vm_compute; reflexivity).
  assert (HW : 0 < kwargs_get (kw_window_traces narrow_kwargs) 1200)
    by (vm_compute; reflexivity).
  assert (Hfig :
    nth_error
      (drawn (snd (process_and_export_images (fun _ => true) example_matrix
                     example_info String.EmptyString String.EmptyString
                     narrow_kwargs empty_studio))) 1
    = Some (window_figure example_matrix String.EmptyString
              String.EmptyString 2 3 300 1))
    by (vm_compute; reflexivity).
  apply (proj2 (proj2 (window_shows_the_decoded_columns (fun _ => true)
                  example_file float_200 example_matrix example_info
                  example_world String.EmptyString String.EmptyString
                  narrow_kwargs 1 3 0 _ Hrun Hlt HW Hfig
                  eq_refl eq_refl eq_refl))).
Defined.

Lemma truediv_by_nan (n : Z) (len : float) :
  PyFloat.int_truediv n S754_nan = inr len -> len = S754_nan.
Proof.
  unfold PyFloat.int_truediv, PyFloat.truediv.
  destruct (PyFloat.of_int n) as [e|a]; [discriminate|].
  intros H. injection H as <-. destruct a; reflexivity.
Qed.

Lemma float_lt_nan (y : number) : float_lt S754_nan y = false.
Proof. destruct y; reflexivity. Qed.

(** A file whose density field holds a NaN decodes to a record whose line
    length is a NaN, and [nan < threshold] is false for every threshold:
    such a recording is never exported as a single image, its export
    always starts on the window branch. *)
Theorem nan_density_recording_is_always_windowed
    (savefig_ok : image_path -> bool) (file : list byte) (d : float)
    (m : Np.ndarray) (hi : header_info) (w : world)
    (base_filename output_dir : String.string) (kw : kwargs) (st : studio) :
  decode file d = (Some m, Some hi, w) ->
  field_scans_per_meter file = S754_nan ->
  total_length_m hi = S754_nan
  /\ exists rest,
       console (snd (process_and_export_images savefig_ok m hi base_filename
                       output_dir kw st))
       = console st
         ++ Splitting S754_nan
              (kwargs_get (kw_length_threshold_m kw) (PyInt 100)) :: rest.
Proof.
  intros Hrun Hnan. pose proof (decode_success_inv _ _ _ _ _ Hrun) as F.
  assert (Hlen : total_length_m hi = S754_nan).
  { pose proof (sf_hi_length _ _ _ _ _ F) as Hdiv.
    rewrite (sf_hi_spm _ _ _ _ _ F), Hnan in Hdiv. cbn in Hdiv.
    apply (truediv_by_nan _ _ Hdiv). }
  split; [exact Hlen|].
  assert (Hlt : float_lt (total_length_m hi)
                  (kwargs_get (kw_length_threshold_m kw) (PyInt 100)) = false)
    by (rewrite Hlen; apply float_lt_nan).
  assert (HT : 0 <= trace_count hi).
  { rewrite (sf_hi_traces _ _ _ _ _ F). pose proof (sf_traces _ _ _ _ _ F). lia. }
  destruct (decoded_matrix_has_items file d m hi w Hrun)
    as (Hrows & _ & Htraces).
  destruct (Z.lt_trichotomy (kwargs_get (kw_window_traces kw) 1200) 0)
    as [HW|[HW|HW]].
  - rewrite export_negative_window_run by assumption.
    cbn [snd console]. rewrite Hlen, <- app_assoc. eexists. reflexivity.
  - rewrite export_zero_window_run by assumption.
    cbn [snd console]. rewrite Hlen. eexists. reflexivity.
  - rewrite export_windows_run by (assumption || lia).
    cbn [snd console].
    match goal with
    | |- context [fold_left (draw savefig_ok) ?figs ?st0] =>
        destruct (fold_draw savefig_ok figs st0) as (_ & _ & Hc)
    end.
    rewrite Hc. cbn [console]. rewrite Hlen, <- !app_assoc.
    eexists. reflexivity.
Qed.

Lemma nan_density_recording_is_always_windowed_witness :
  exists m hi w,
    decode nan_density_file float_200 = (Some m, Some hi, w)
    /\ total_length_m hi = S754_nan.
Proof.
  destruct (decode nan_density_file float_200) as [[[m|] [hi|]] w] eqn:Hrun;
    try (exfalso; vm_compute in Hrun; discriminate Hrun).
  exists m, hi, w. split; [reflexivity|].
  assert (Hnan : field_scans_per_meter nan_density_file = S754_nan)
    by (vm_compute; reflexivity).
  exact (proj1 (nan_density_recording_is_always_windowed (fun _ => true)
                  nan_density_file float_200 m hi w String.EmptyString
                  String.EmptyString main_kwargs empty_studio Hrun Hnan)).
Defined.

(** ** The batch driver *)

Lemma export_run_summary (ok : image_path -> bool)
    (radar_data : Np.ndarray) (info : header_info)
    (base_filename output_dir : String.string) (kw : kwargs) (st : studio) :
  (0 < fst (Np.shape radar_data))%nat ->
  (0 < snd (Np.shape radar_data))%nat ->
  trace_count info <= Z.of_nat (snd (Np.shape radar_data)) ->
  float_lt (total_length_m info)
    (kwargs_get (kw_length_threshold_m kw) (PyInt 100)) = true
  \/ 0 < kwargs_get (kw_window_traces kw) 1200 ->
  let run := process_and_export_images ok radar_data info base_filename
               output_dir kw st in
  let figs := export_figures radar_data info base_filename output_dir kw in
  fst run = inr tt
  /\ drawn (snd run) = drawn st ++ figs
  /\ written (snd run) = written st ++ filter ok (map fig_path figs).
Proof.
  intros Hrows Hcols Htraces Hcase run figs. unfold run, figs, export_figures.
  assert (Hsize : (0 < array_size radar_data)%nat)
    by (unfold array_size; nia).
  destruct (float_lt (total_length_m info)
              (kwargs_get (kw_length_threshold_m kw) (PyInt 100))) eqn:Hlt.
  - rewrite export_single_run by assumption.
    cbn [fst snd draw drawn written console fig_path map filter].
    destruct (ok _); repeat split.
  - destruct Hcase as [|HW]; [discriminate|].
    rewrite export_windows_run by assumption.
    cbn [fst snd drawn written console].
    match goal with
    | |- context [fold_left (draw ok) ?figs ?st0] =>
        destruct (fold_draw ok figs st0) as (Hd & Hw & _)
    end.
    rewrite Hd, Hw. repeat split.
Qed.

Lemma filter_decoder_lines (p : main_line -> bool) (filename : String.string)
    (msgs : list message) :
  (forall msg, p (DecoderSays filename msg) = false) ->
  filter p (map (DecoderSays filename) msgs) = [].
Proof.
  intros Hp. induction msgs as [|x msgs IH]; [reflexivity|].
  cbn [map filter]. rewrite Hp. exact IH.
Qed.

Lemma filter_export_lines (p : main_line -> bool)
    (msgs : list export_message) :
  (forall msg, p (ExportSays msg) = false) ->
  filter p (map ExportSays msgs) = [].
Proof.
  intros Hp. induction msgs as [|x msgs IH]; [reflexivity|].
  cbn [map filter]. rewrite Hp. exact IH.
Qed.

Section MainRuns.

Variable savefig_ok : image_path -> bool.

(** No exception leaves a step of the loop: a file that does not decode
    is skipped, and a decoded matrix has items in each of its windows.
    The step appends the figures of its entry, writes those of them that
    can be saved, and ends a recording with a separator. *)
Lemma main_step_summary (entry : String.string * option (list byte))
    (found : bool) (s : session) :
  exists found' s',
    main_step savefig_ok entry found s = (inr found', s')
    /\ found' = (found || is_dzt (fst entry))
    /\ gallery s' = gallery s ++ entry_figures entry
    /\ saved s' = saved s ++ filter savefig_ok (map fig_path (entry_figures entry))
    /\ made_dirs s' = made_dirs s
    /\ length (filter is_separator (screen s'))
       = (length (filter is_separator (screen s))
          + if is_dzt (fst entry) then 1 else 0)%nat
    /\ filter is_no_files_notice (screen s')
       = filter is_no_files_notice (screen s)
    /\ (is_dzt (fst entry) = false -> s' = s).
Proof.
  destruct entry as [filename contents].
  unfold main_step, entry_figures, is_dzt. cbn [fst snd].
  destruct (endswith (lower (chars filename)) dzt_suffix).
  2:{ exists found, s. rewrite orb_false_r, !app_nil_r, Nat.add_0_r.
      repeat split. }
  pose proof (run_cases contents DEFAULT_SCANS_PER_METER) as Hcases.
  destruct (read_gssi_dzt_final contents DEFAULT_SCANS_PER_METER initial)
    as [[radar_data info] w] eqn:Hrun.
  cbn [fst snd] in *.
  destruct Hcases as [[Hfail _] | [(m & hi & Hok) _]]; cbn [fst] in *.
  - injection Hfail as -> ->.
    eexists; eexists. split; [reflexivity|].
    cbn [gallery saved made_dirs screen map filter].
    rewrite orb_true_r, !app_nil_r, !filter_app, !length_app.
    rewrite !filter_decoder_lines by reflexivity.
    cbn [filter is_no_files_notice is_separator length app].
    rewrite ?app_nil_r.
    repeat split; try assumption; try lia; try discriminate;
      rewrite ?app_nil_r; reflexivity.
  - injection Hok as -> ->.
    set (base := String.string_of_list_ascii (splitext_root (chars filename))).
    assert (Hitems : (0 < fst (Np.shape m))%nat /\ (0 < snd (Np.shape m))%nat
                     /\ trace_count hi = Z.of_nat (snd (Np.shape m))).
    { destruct contents as [file|].
      - apply (decoded_matrix_has_items file DEFAULT_SCANS_PER_METER m hi w).
        exact Hrun.
      - discriminate Hrun. }
    destruct Hitems as (Hrows & Hcols & Htraces).
    destruct (export_run_summary savefig_ok m hi base Paths.output_directory
                main_kwargs
                {| drawn := gallery s; written := saved s; console := [] |}
                Hrows Hcols ltac:(lia) (or_intror eq_refl)) as (Hr & Hd & Hw).
    cbn [gallery saved made_dirs screen] in *.
    destruct (process_and_export_images savefig_ok m hi base
                Paths.output_directory main_kwargs _) as [r st] eqn:Hexp.
    cbn [fst snd drawn written] in Hr, Hd, Hw. subst r.
    eexists; eexists. split; [reflexivity|].
    cbn [gallery saved made_dirs screen].
    rewrite orb_true_r, !filter_app, !length_app.
    rewrite !filter_decoder_lines, !filter_export_lines by reflexivity.
    cbn [filter is_no_files_notice is_separator length app].
    rewrite ?app_nil_r.
    repeat split; try assumption; try lia; try discriminate;
      rewrite ?app_nil_r; reflexivity.
Qed.

Lemma main_loop_summary (listing : list (String.string * option (list byte)))
    (found : bool) (s : session) :
  exists found' s',
    main_loop savefig_ok listing found s = (inr found', s')
    /\ found' = (found || existsb (fun e => is_dzt (fst e)) listing)
    /\ gallery s' = gallery s ++ flat_map entry_figures listing
    /\ saved s'
       = saved s
         ++ filter savefig_ok (map fig_path (flat_map entry_figures listing))
    /\ made_dirs s' = made_dirs s
    /\ length (filter is_separator (screen s'))
       = (length (filter is_separator (screen s))
          + length (filter (fun e => is_dzt (fst e)) listing))%nat
    /\ filter is_no_files_notice (screen s')
       = filter is_no_files_notice (screen s)
    /\ (filter (fun e => is_dzt (fst e)) listing = [] -> s' = s).
Proof.
  revert found s; induction listing as [|entry rest IH]; intros found s.
  - exists found, s. cbn. rewrite orb_false_r, !app_nil_r, Nat.add_0_r.
    repeat split.
  - destruct (main_step_summary entry found s)
      as (f1 & s1 & Hstep & Hf1 & Hg1 & Hs1 & Hm1 & Hsep1 & Hn1 & Hid1).
    destruct (IH f1 s1)
      as (f2 & s2 & Hloop & Hf2 & Hg2 & Hs2 & Hm2 & Hsep2 & Hn2 & Hid2).
    exists f2, s2. cbn [main_loop]. rewrite Hstep.
    split; [exact Hloop|].
    cbn [existsb flat_map filter].
    rewrite Hf2, Hg2, Hs2, Hm2, Hsep2, Hn2, Hf1, Hg1, Hs1, Hm1, Hsep1, Hn1.
    rewrite map_app, filter_app, <- !app_assoc, orb_assoc.
    repeat split.
    + destruct (is_dzt (fst entry)); cbn [length]; lia.
    + destruct (is_dzt (fst entry)); [discriminate|].
      intros Hrest. rewrite (Hid2 Hrest). apply Hid1. reflexivity.
Qed.

End MainRuns.

(** With the output directory made and the directory listed as [main]
    takes them, no exception of the decoder or of the export leaves
    [main]: a file that cannot be read or decoded is skipped, a matrix
    never comes without its record, the window of [main] is not zero, and
    no figure of a decoded matrix is without items, so neither the
    subscript of the record, nor [range], nor [np.percentile] raises.
    Each directory entry contributes the figures of its own file and
    nothing else: the gallery is the concatenation, in directory order,
    of what each ".dzt" entry that decodes gives by itself, and entries
    that are not recordings or do not decode give none. The files
    written are the drawn figures that could be saved, and the output
    directory is made exactly when it was missing. *)
Theorem main_exports_each_file_on_its_own (savefig_ok : image_path -> bool)
    (output_exists : bool)
    (listing : list (String.string * option (list byte))) :
  let run := main savefig_ok output_exists listing in
  fst run = inr tt
  /\ gallery (snd run) = flat_map entry_figures listing
  /\ saved (snd run)
     = filter savefig_ok (map fig_path (gallery (snd run)))
  /\ made_dirs (snd run)
     = (if output_exists then [] else [Paths.output_directory]).
Proof.
  intros run. unfold run, main.
  match goal with
  | |- context [main_loop savefig_ok listing false ?s0] =>
      destruct (main_loop_summary savefig_ok listing false s0)
        as (found & s & Hloop & _ & Hg & Hs & Hm & _ & _ & _)
  end.
  rewrite Hloop. cbn [gallery saved made_dirs app] in Hg, Hs, Hm.
  destruct (negb found); cbn [fst snd gallery saved made_dirs];
    rewrite Hs, Hg, Hm; repeat split.
Qed.

Lemma main_exports_each_file_on_its_own_witness :
  map fig_path (gallery (snd (main (fun _ => true) false Listing.example)))
  = map fig_path (flat_map entry_figures Listing.example).
Proof.
  pose proof (main_exports_each_file_on_its_own (fun _ => true) false
                Listing.example) as H.
  cbv zeta in H. destruct H as (_ & Hg & _).
  rewrite Hg. reflexivity.
Defined.

(** Every ".dzt" entry ends with one separator line, whether it decodes
    or not, and the message that no recording was found is printed
    exactly when no name of the directory passes the suffix test; then
    nothing else is printed and nothing is drawn. *)
Theorem main_reports_each_recording (savefig_ok : image_path -> bool)
    (output_exists : bool)
    (listing : list (String.string * option (list byte))) :
  let run := main savefig_ok output_exists listing in
  let recordings := filter (fun e => is_dzt (fst e)) listing in
  length (filter is_separator (screen (snd run))) = length recordings
  /\ (In NoDztFilesFound (screen (snd run)) <-> recordings = [])
  /\ (recordings = [] ->
      screen (snd run) = [NoDztFilesFound] /\ gallery (snd run) = []).
Proof.
  intros run recordings. unfold run, main.
  match goal with
  | |- context [main_loop savefig_ok listing false ?s0] =>
      destruct (main_loop_summary savefig_ok listing false s0)
        as (found & s & Hloop & Hfound & _ & _ & _ & Hsep & Hnot & Hid)
  end.
  rewrite Hloop. fold recordings in Hsep, Hid.
  cbn [screen filter length orb Nat.add] in Hsep, Hnot, Hfound.
  assert (Hrec : found = false <-> recordings = []).
  { rewrite Hfound. unfold recordings.
    clear. induction listing as [|e rest IH]; cbn [existsb filter].
    - split; reflexivity.
    - destruct (is_dzt (fst e)); cbn [orb]; [split; discriminate | exact IH]. }
  assert (Hclean : ~ In NoDztFilesFound (screen s)).
  { intros Hin.
    assert (Hin' : In NoDztFilesFound (filter is_no_files_notice (screen s)))
      by (apply filter_In; split; [exact Hin | reflexivity]).
    rewrite Hnot in Hin'. contradiction. }
  destruct found; cbn [negb fst snd screen gallery].
  - split; [exact Hsep|]. split.
    + split; [intros Hin; contradiction
             | intros E; apply Hrec in E; discriminate].
    + intros E. apply Hrec in E. discriminate.
  - assert (E : recordings = []) by (apply Hrec; reflexivity).
    rewrite (Hid E). cbn [screen gallery app filter is_separator length].
    rewrite E. repeat split; try reflexivity. left. reflexivity.
Qed.

Lemma main_reports_each_recording_witness :
  screen (snd (main (fun _ => true) true Listing.no_recordings))
  = [NoDztFilesFound].
Proof.
  pose proof (main_reports_each_recording (fun _ => true) true
                Listing.no_recordings) as H.
  cbv zeta in H. destruct H as (_ & _ & Hnone).
  apply Hnone. vm_compute. reflexivity.
Defined.

(** ** Names of recordings *)

Lemma lower_char_cases (c : Ascii.ascii) :
  (lower_char c = dot -> c = dot)
  /\ (lower_char c = Ascii.ascii_of_nat 100 ->
      c = Ascii.ascii_of_nat 100 \/ c = Ascii.ascii_of_nat 68)
  /\ (lower_char c = Ascii.ascii_of_nat 122 ->
      c = Ascii.ascii_of_nat 122 \/ c = Ascii.ascii_of_nat 90)
  /\ (lower_char c = Ascii.ascii_of_nat 116 ->
      c = Ascii.ascii_of_nat 116 \/ c = Ascii.ascii_of_nat 84).
Proof.
  destruct c as [[] [] [] [] [] [] [] []]; vm_compute;
    repeat split; intros H;
    first [discriminate H | left; reflexivity | right; reflexivity | reflexivity].
Qed.

Lemma chars_eqb_eq (a b : list Ascii.ascii) : chars_eqb a b = true <-> a = b.
Proof.
  unfold chars_eqb. destruct (list_eq_dec Ascii.ascii_dec a b);
    split; intros H; try assumption; try reflexivity; try discriminate.
  contradiction.
Qed.

Lemma rfind_dot_after (stem ext : list Ascii.ascii) :
  forallb (fun c => negb (Ascii.eqb c dot)) ext = true ->
  rfind_dot (stem ++ dot :: ext) = Some (length stem).
Proof.
  intros Hext.
  assert (Hnone : rfind_dot ext = None).
  { induction ext as [|c ext IH]; [reflexivity|].
    cbn [forallb] in Hext. apply andb_prop in Hext. destruct Hext as [Hc Hext].
    cbn [rfind_dot]. rewrite (IH Hext).
    destruct (Ascii.eqb c dot); [discriminate | reflexivity]. }
  induction stem as [|c stem IH].
  - cbn [app rfind_dot length]. rewrite Hnone, Ascii.eqb_refl. reflexivity.
  - cbn [app rfind_dot length]. rewrite IH. reflexivity.
Qed.

(** The suffix test ignores the case of the extension: a name is taken
    for a recording exactly when it ends in a dot followed by d or D, z
    or Z, t or T. Its base name is then the name without these four
    characters, unless nothing but dots comes before them: such a name,
    ".dzt" for one, is its own base name. *)
Theorem recording_names_and_base_names (filename : String.string) :
  is_dzt filename = true
  <-> exists stem c1 c2 c3,
        chars filename = stem ++ [dot; c1; c2; c3]
        /\ (c1 = Ascii.ascii_of_nat 100 \/ c1 = Ascii.ascii_of_nat 68)
        /\ (c2 = Ascii.ascii_of_nat 122 \/ c2 = Ascii.ascii_of_nat 90)
        /\ (c3 = Ascii.ascii_of_nat 116 \/ c3 = Ascii.ascii_of_nat 84)
        /\ splitext_root (chars filename)
           = (if forallb (fun c => Ascii.eqb c dot) stem then chars filename
              else stem).
Proof.
  unfold is_dzt, endswith, lower. split.
  - intros H. apply andb_prop in H. destruct H as [Hlen Hsuf].
    apply Nat.leb_le in Hlen. apply chars_eqb_eq in Hsuf.
    rewrite length_map in Hlen, Hsuf. cbn [length dzt_suffix] in Hlen, Hsuf.
    rewrite skipn_map in Hsuf.
    set (l := chars filename) in *.
    pose proof (firstn_skipn (length l - 4) l) as Hsplit.
    assert (Hl4 : length (skipn (length l - 4) l) = 4%nat)
      by (rewrite length_skipn; lia).
    destruct (skipn (length l - 4) l) as [|a [|b [|c [|e [|x rest]]]]];
      try discriminate Hl4.
    cbn [map] in Hsuf. injection Hsuf as Ha Hb Hc He.
    apply (proj1 (lower_char_cases a)) in Ha.
    apply (proj1 (proj2 (lower_char_cases b))) in Hb.
    apply (proj1 (proj2 (proj2 (lower_char_cases c)))) in Hc.
    apply (proj2 (proj2 (proj2 (lower_char_cases e)))) in He.
    subst a.
    remember (firstn (length l - 4) l) as stem eqn:Hstem. clear Hstem Hl4 Hlen.
    exists stem, b, c, e.
    split; [symmetry; exact Hsplit|]. repeat split; try assumption.
    rewrite <- Hsplit. unfold splitext_root.
    rewrite rfind_dot_after.
    + rewrite firstn_app, Nat.sub_diag, firstn_all, firstn_O, app_nil_r.
      reflexivity.
    + destruct Hb as [-> | ->], Hc as [-> | ->], He as [-> | ->]; reflexivity.
  - intros (stem & c1 & c2 & c3 & Hname & H1 & H2 & H3 & _).
    rewrite Hname, length_map, length_app. cbn [length dzt_suffix].
    apply andb_true_intro. split; [apply Nat.leb_le; lia|].
    apply chars_eqb_eq.
    replace (length stem + 4 - 4)%nat with (length stem) by lia.
    rewrite map_app, skipn_app, length_map, Nat.sub_diag.
    rewrite skipn_all2 by (rewrite length_map; lia).
    destruct H1 as [-> | ->], H2 as [-> | ->], H3 as [-> | ->]; reflexivity.
Qed.

Lemma recording_names_and_base_names_witness :
  exists stem, splitext_root (chars (fst (hd (String.EmptyString, None)
                                           Listing.example))) = stem
               /\ length stem = 1%nat.
Proof.
  assert (Hdzt : is_dzt (fst (hd (String.EmptyString, None) Listing.example))
                 = true) by (vm_compute; reflexivity).
  destruct (proj1 (recording_names_and_base_names _) Hdzt)
    as (stem & c1 & c2 & c3 & Hname & _ & _ & _ & Hroot).
  eexists. split; [reflexivity|]. vm_compute. reflexivity.
Defined.
